(** * The authentication centre of the S3 gateway

    A shallow embedding of package [auth] (type [Center], its credential
    codec [packBearerToken] / [unpackBearerToken], the request check
    [AuthenticationPassed] and [readAndKeepBody]) together with the
    pieces of the Go libraries that the package calls.

    Conventions.
    - A Go [string] is a [string] (a sequence of 8-bit characters), a
      [[]byte] is a [list byte], a [map[string]T] is a [gmap string T].
    - A Go value of interface type [error] is an [option err]; [None] is
      the nil error.
    - A library call returning [(T, error)] with exactly one of the two
      meaningful is a [result T].
    - Mutation of the request passed by pointer is explicit state passing:
      a function that may assign to [request.Body] returns the request it
      leaves behind. *)

From stdpp Require Import gmap strings list fin_maps.
From Stdlib Require Import Strings.Byte Strings.Ascii Strings.String NArith.

Local Open Scope string_scope.

Abbreviation ByteSlice := (list byte).

(** ** Errors: the interface [error] and package github.com/pkg/errors *)

Inductive err : Type :=
| fundamental (msg : string)
| withMessage (cause : err) (msg : string).

Abbreviation error := (option err).

Inductive result (A : Type) : Type :=
| Ok (a : A)
| Err (e : err).
Arguments Ok {A} a.
Arguments Err {A} e.

Module errors.
(** [errors.New(message)]. *)
Definition New (message : string) : error := Some (fundamental message).

(** [errors.Wrap(err, message)]: "If err is nil, Wrap returns nil." *)
Definition Wrap (e : error) (message : string) : error :=
  match e with
  | None => None
  | Some cause => Some (withMessage cause message)
  end.
End errors.

(** ** Package encoding/hex *)

Module hex.
Definition hextable : string := "0123456789abcdef".

Definition digit (n : N) : ascii :=
  default "0"%char (String.get (N.to_nat n) hextable).

Fixpoint EncodeToString (src : ByteSlice) : string :=
  match src with
  | [] => ""
  | b :: rest =>
      let v := Byte.to_N b in
      String (digit (N.shiftr v 4))
             (String (digit (N.land v 15)) (EncodeToString rest))
  end.

Definition fromHexChar (c : ascii) : option N :=
  let n := N_of_ascii c in
  if (48 <=? n)%N && (n <=? 57)%N then Some (n - 48)%N
  else if (97 <=? n)%N && (n <=? 102)%N then Some (n - 97 + 10)%N
  else if (65 <=? n)%N && (n <=? 70)%N then Some (n - 65 + 10)%N
  else None.

(** The error values of the package, by their messages.  An invalid byte
    is printed in the [%#U] form of its rune: [U+00XX], followed by the
    quoted character when [strconv.IsPrint] holds of it (the character in
    UTF-8, two bytes from [U+00A1] on). *)
Definition upperDigit (n : N) : ascii :=
  default "0"%char (String.get (N.to_nat n) "0123456789ABCDEF").

Definition quotedRune (c : ascii) : string :=
  let n := N_of_ascii c in
  if (32 <=? n)%N && (n <=? 126)%N then " '" ++ String c "'"
  else if (161 <=? n)%N && negb (n =? 173)%N
  then " '" ++ String (ascii_of_N (192 + N.shiftr n 6))
                      (String (ascii_of_N (128 + N.land n 63)) "'")
  else "".

Definition InvalidByteError (c : ascii) : err :=
  let n := N_of_ascii c in
  fundamental ("encoding/hex: invalid byte: U+00" ++
               String (upperDigit (N.shiftr n 4))
                      (String (upperDigit (N.land n 15)) (quotedRune c))).
Definition ErrLength : err :=
  fundamental "encoding/hex: odd length hex string".

(** [hex.DecodeString]: pairs of digits from the left; a bad digit is
    reported before an odd length. *)
Fixpoint DecodeString (s : string) : result ByteSlice :=
  match s with
  | "" => Ok []
  | String c "" =>
      match fromHexChar c with
      | None => Err (InvalidByteError c)
      | Some _ => Err ErrLength
      end
  | String c1 (String c2 rest) =>
      match fromHexChar c1 with
      | None => Err (InvalidByteError c1)
      | Some a =>
          match fromHexChar c2 with
          | None => Err (InvalidByteError c2)
          | Some b =>
              match DecodeString rest with
              | Err e => Err e
              | Ok out =>
                  Ok (default x00 (Byte.of_N (N.lor (N.shiftl a 4) b)) :: out)
              end
          end
      end
  end.
End hex.

(** ** Package strings *)

Module strings.
Fixpoint HasPrefix (s prefix : string) : bool :=
  match prefix, s with
  | "", _ => true
  | String p prefix', String c s' =>
      if Ascii.eqb p c then HasPrefix s' prefix' else false
  | String _ _, "" => false
  end.

(** One pass over [s]: [cur] is the piece being collected, [skip] counts
    the characters of a separator just recognised that are still to be
    passed over. *)
Fixpoint genSplit (sep : string) (skip : nat) (cur : string) (s : string)
  : list string :=
  match s with
  | "" => [cur]
  | String c s' =>
      match skip with
      | S k => genSplit sep k cur s'
      | O =>
          if HasPrefix s sep
          then cur :: genSplit sep (String.length sep - 1) "" s'
          else genSplit sep 0 (cur ++ String c "") s'
      end
  end.

Fixpoint explode (s : string) : list string :=
  match s with
  | "" => []
  | String c s' => String c "" :: explode s'
  end.

(** [strings.Split(s, sep)].  With an empty separator Go splits after
    each UTF-8 sequence; the model splits after each character, which
    agrees on ASCII text (the gateway only calls it with [";"]). *)
Definition Split (s sep : string) : list string :=
  if decide (sep = "") then explode s else genSplit sep 0 "" s.
End strings.

(** ** Packages bytes and io/ioutil *)

Module bytes.
(** [bytes.Reader]: the slice read from and the read position. *)
Record Reader : Type := { s : ByteSlice; i : Z }.

Definition NewReader (b : ByteSlice) : Reader := {| s := b; i := 0 |}.

(** [var r bytes.Reader]: the zero value, a reader of the nil slice. *)
Definition zero : Reader := {| s := []; i := 0 |}.

(** What a consumer that reads the reader to its end receives. *)
Definition unread (r : Reader) : ByteSlice := drop (Z.to_nat (i r)) (s r).
End bytes.

(** An [io.ReadCloser] holding a request body: the bytes it has still to
    deliver, followed by end-of-file ([failure = None]) or by a read error. *)
Record ReadCloser : Type := { pending : ByteSlice; failure : error }.

Module ioutil.
(** [ioutil.ReadAll(r)] reads until end-of-file or error; it returns the
    bytes read and the error, and leaves the reader drained. *)
Definition ReadAll (r : ReadCloser) : ReadCloser * (ByteSlice * error) :=
  ({| pending := []; failure := failure r |}, (pending r, failure r)).

(** [ioutil.NopCloser(bytes.NewReader(payload))]. *)
Definition NopCloser (r : bytes.Reader) : ReadCloser :=
  {| pending := bytes.unread r; failure := None |}.
End ioutil.

(** ** Packages net/url and net/http *)

Module url.
Record URL : Type :=
  { Scheme : string; Host : string; Path : string; RawQuery : string }.

(** [func (v Values) Get(key string) string]: the first value associated
    with the key, or the empty string. *)
Definition Get (v : gmap string (list string)) (key : string) : string :=
  match v !! key with
  | Some (first :: _) => first
  | _ => ""
  end.
End url.

Module http.
Record Request : Type :=
  { Method : string;
    URL : url.URL;
    Header : gmap string (list string);
    Body : option ReadCloser;
    Host : string }.

(** [request.Header[key]]: a missing key gives the nil slice. *)
Definition index (h : gmap string (list string)) (key : string) : list string :=
  default [] (h !! key).

(** [func (h Header) Get(key string) string].  The two keys the package
    asks for, "X-Amz-Date" and "Authorization", are already in canonical
    MIME form, so canonicalisation of the argument is the identity. *)
Definition Get (h : gmap string (list string)) (key : string) : string :=
  match h !! key with
  | Some (first :: _) => first
  | _ => ""
  end.

Definition withBody (r : Request) (b : option ReadCloser) : Request :=
  {| Method := Method r; URL := URL r; Header := Header r;
     Body := b; Host := Host r |}.

Definition withHeader (r : Request) (h : gmap string (list string)) : Request :=
  {| Method := Method r; URL := URL r; Header := h;
     Body := Body r; Host := Host r |}.

(** [r.Clone(ctx)]: method, URL and header are copied; the clone refers
    to the same body as [r]. *)
Definition Clone (r : Request) : Request := r.
End http.

(** ** Packages aws/credentials and aws/signer/v4 *)

Module credentials.
Record Credentials : Type :=
  { AccessKeyID : string; SecretAccessKey : string; SessionToken : string }.

Definition NewStaticCredentials (id secret token : string) : Credentials :=
  {| AccessKeyID := id; SecretAccessKey := secret; SessionToken := token |}.
End credentials.

Module v4.
Record Signer : Type := { Credentials : credentials.Credentials }.

Definition NewSigner (creds : credentials.Credentials) : Signer :=
  {| Credentials := creds |}.
End v4.

(** ** Package auth: constants and types that do not depend on the libraries *)

Definition authorizationFieldRegexp : string :=
  "AWS4-HMAC-SHA256 Credential=(?P<access_key_id>[^/]+)/(?P<date>[^/]+)/(?P<region>[^/]*)/(?P<service>[^/]+)/aws4_request, SignedHeaders=(?P<signed_header_fields>.*), Signature=(?P<v4_signature>.*)".

Record regexpSubmatcher : Type := { re : string }.

(** [m[key]] on a [map[string]string]: a missing key gives [""]. *)
Definition at_key (m : gmap string string) (key : string) : string :=
  default "" (m !! key).

(** ** What the package takes from elsewhere

    The token type of neofs-api-go, the RSA-OAEP helpers [encrypt] and
    [decrypt], [sha256Hash] and [regexpSubmatcher.getSubmatches] that
    other files of this package define, the zstd codec, [time.Parse], [URL.Query], [strings.EqualFold] and the AWS
    signer.  They are the operations of an interface; every result below
    holds for each implementation of it, and the laws a result needs are
    stated where it needs them.

    [encrypt] draws on [rand.Reader]; what it draws is the [Entropy]
    argument.  [Sign] mutates the request it is given and returns an error:
    it returns the request it leaves behind and the error.  Its [body]
    argument is an [io.ReadSeeker], which may be nil.  The request it is
    given is the clone; it is taken not to write through the header value
    slices that the clone shares with the original. *)

Class Libs : Type :=
  { BearerTokenMsg : Type;
    Marshal : BearerTokenMsg -> result ByteSlice;
    Unmarshal : ByteSlice -> result BearerTokenMsg;
    ecdsa_PrivateKey : Type;
    OwnerID : Type;
    rsa_PrivateKey : Type;
    rsa_PublicKey : Type;
    rsa_Public : rsa_PrivateKey -> rsa_PublicKey;
    Entropy : Type;
    encrypt : rsa_PublicKey -> ByteSlice -> Entropy -> result ByteSlice;
    decrypt : rsa_PrivateKey -> ByteSlice -> result ByteSlice;
    sha256Hash : ByteSlice -> ByteSlice;
    zstd_Encoder : Type;
    zstd_Decoder : Type;
    EncodeAll : zstd_Encoder -> ByteSlice -> ByteSlice -> ByteSlice;
    DecodeAll : zstd_Decoder -> ByteSlice -> ByteSlice -> result ByteSlice;
    time_Time : Type;
    time_Parse : string -> string -> result time_Time;
    URL_Query : url.URL -> gmap string (list string);
    EqualFold : string -> string -> bool;
    getSubmatches : regexpSubmatcher -> string -> gmap string string;
    Sign : v4.Signer -> http.Request -> option bytes.Reader -> string ->
           string -> time_Time -> http.Request * error }.

Section Auth.
Context {L : Libs}.

(** [type Center struct].  The logger is left out (no function below
    uses it); the key pointers are modelled in their non-nil state. *)
Record Center : Type :=
  { submatcher : regexpSubmatcher;
    zstdEncoder : zstd_Encoder;
    zstdDecoder : zstd_Decoder;
    neofsKeys_PrivateKey : ecdsa_PrivateKey;
    ownerID : OwnerID;
    wifString : string;
    userAuthKeys_PrivateKey : rsa_PrivateKey;
    userAuthKeys_PublicKey : rsa_PublicKey }.

Definition SetUserAuthKeys (center : Center) (key : rsa_PrivateKey) : Center :=
  {| submatcher := submatcher center;
     zstdEncoder := zstdEncoder center;
     zstdDecoder := zstdDecoder center;
     neofsKeys_PrivateKey := neofsKeys_PrivateKey center;
     ownerID := ownerID center;
     wifString := wifString center;
     userAuthKeys_PrivateKey := key;
     userAuthKeys_PublicKey := rsa_Public key |}.

Definition compress (center : Center) (data : ByteSlice) : ByteSlice :=
  EncodeAll (zstdEncoder center) data [].

Definition decompress (center : Center) (data : ByteSlice) : result ByteSlice :=
  DecodeAll (zstdDecoder center) data [].

(** In the two codec functions [errors.Wrap] is only applied to an error
    that is not nil; [Err (withMessage e m)] is its result there. *)
Definition packBearerToken (center : Center) (bearerToken : BearerTokenMsg)
    (rnd : Entropy) : result (string * string) :=
  match Marshal bearerToken with
  | Err e => Err (withMessage e "failed to marshal bearer token")
  | Ok data =>
      match encrypt (userAuthKeys_PublicKey center) (compress center data) rnd with
      | Err e => Err (withMessage e "failed to encrypt bearer token bytes")
      | Ok encryptedKeyID =>
          let accessKeyID := hex.EncodeToString encryptedKeyID in
          let secretAccessKey := hex.EncodeToString (sha256Hash data) in
          Ok (accessKeyID, secretAccessKey)
      end
  end.

Definition unpackBearerToken (center : Center) (accessKeyID : string)
    : result (BearerTokenMsg * string) :=
  match hex.DecodeString accessKeyID with
  | Err e => Err (withMessage e "failed to decode HEX string")
  | Ok encryptedKeyID =>
      match decrypt (userAuthKeys_PrivateKey center) encryptedKeyID with
      | Err e => Err (withMessage e "failed to decrypt key ID")
      | Ok compressedKeyID =>
          match decompress center compressedKeyID with
          | Err e => Err (withMessage e "failed to decompress key ID")
          | Ok data =>
              match Unmarshal data with
              | Err e => Err (withMessage e "failed to unmarshal embedded bearer token")
              | Ok bearerToken =>
                  let secretAccessKey := hex.EncodeToString (sha256Hash data) in
                  Ok (bearerToken, secretAccessKey)
              end
          end
      end
  end.

(** [readAndKeepBody]: the request it leaves behind, and its results. *)
Definition readAndKeepBody (request : http.Request)
    : http.Request * (option bytes.Reader * error) :=
  match http.Body request with
  | None => (request, (Some bytes.zero, None))
  | Some body =>
      let '(drained, (payload, e)) := ioutil.ReadAll body in
      match e with
      | Some _ => (http.withBody request (Some drained), (None, e))
      | None =>
          (http.withBody request
             (Some (ioutil.NopCloser (bytes.NewReader payload))),
           (Some (bytes.NewReader payload), None))
      end
  end.

(** [otherRequest.Body] and [request.Body] refer to one reader from the
    clone on.  [readAndKeepBody] reads that reader to its end before it
    gives [request] a new one, so this is the body [otherRequest] is left
    with. *)
Definition drainedBody (request : http.Request) : option ReadCloser :=
  match http.Body request with
  | None => None
  | Some body => Some (fst (ioutil.ReadAll body))
  end.

(** The loop of [AuthenticationPassed] that fills [otherRequest.Header]:
    for each header of the request, for each signed header name. *)
Definition keepSigned (signedHeaderFieldsNames : list string)
    (hfn : string) (hfvs : list string)
    (out : gmap string (list string)) : gmap string (list string) :=
  foldl (fun acc shfn => if EqualFold hfn shfn then <[hfn := hfvs]> acc else acc)
        out signedHeaderFieldsNames.

Definition signedHeadersOf (header : gmap string (list string))
    (signedHeaderFieldsNames : list string) : gmap string (list string) :=
  map_fold (keepSigned signedHeaderFieldsNames) ∅ header.

(** Whether [hfn] folds to one of the signed header names: the test that
    the inner loop makes for one header of the request. *)
Definition signedName (signedHeaderFieldsNames : list string) (hfn : string)
    : bool :=
  existsb (EqualFold hfn) signedHeaderFieldsNames.

(** [otherRequest] as it stands when the loop has finished. *)
Definition referenceRequest (request : http.Request)
    (signedHeaderFieldsNames : list string) : http.Request :=
  http.withHeader (http.Clone request)
    (signedHeadersOf (http.Header request) signedHeaderFieldsNames).

(** [AuthenticationPassed] from the call of [signer.Sign] to its end.
    [e] is the variable [err] of the source. *)
Definition signAndCompare (center : Center) (sms1 : gmap string string)
    (bearerToken : BearerTokenMsg) (signer : v4.Signer)
    (otherRequest : http.Request) (body : option bytes.Reader)
    (signatureDateTime : time_Time) : option BearerTokenMsg * error :=
  let '(otherRequest, e) :=
    Sign signer otherRequest body (at_key sms1 "service")
         (at_key sms1 "region") signatureDateTime in
  match e with
  | Some _ => (None, errors.Wrap e "failed to sign temporary HTTP request")
  | None =>
      let sms2 := getSubmatches (submatcher center)
                    (http.Get (http.Header otherRequest) "Authorization") in
      if decide (at_key sms1 "v4_signature" ≠ at_key sms2 "v4_signature")
      then (None, errors.Wrap e "failed to pass authentication procedure")
      else (Some bearerToken, None)
  end.

(** [AuthenticationPassed] from the test on the list of signed header
    names to its end. *)
Definition verifySigned (center : Center) (request : http.Request)
    (sms1 : gmap string string) (signedHeaderFieldsNames : list string)
    : http.Request * (option BearerTokenMsg * error) :=
  if decide (List.length signedHeaderFieldsNames = 0)
  then (request, (None, errors.New "wrong format of signed headers part"))
  else
  match time_Parse "20060102T150405Z"
                   (http.Get (http.Header request) "X-Amz-Date") with
  | Err e =>
      (request, (None, errors.Wrap (Some e) "failed to parse x-amz-date header field"))
  | Ok signatureDateTime =>
      let accessKeyID := at_key sms1 "access_key_id" in
      match unpackBearerToken center accessKeyID with
      | Err e =>
          (request, (None, errors.Wrap (Some e) "failed to unpack bearer token"))
      | Ok (bearerToken, secretAccessKey) =>
          let otherRequest := referenceRequest request signedHeaderFieldsNames in
          let awsCreds :=
            credentials.NewStaticCredentials accessKeyID secretAccessKey "" in
          let signer := v4.NewSigner awsCreds in
          let shared := drainedBody request in
          let '(request, (body, e)) := readAndKeepBody request in
          let otherRequest := http.withBody otherRequest shared in
          match e with
          | Some _ =>
              (request, (None, errors.Wrap e "failed to read out request body"))
          | None =>
              (request,
               signAndCompare center sms1 bearerToken signer otherRequest
                              body signatureDateTime)
          end
      end
  end.

Definition AuthenticationPassed (center : Center) (request : http.Request)
    : http.Request * (option BearerTokenMsg * error) :=
  let queryValues := URL_Query (http.URL request) in
  if decide (url.Get queryValues "X-Amz-Algorithm" = "AWS4-HMAC-SHA256")
  then (request, (None, errors.New "pre-signed form of request is not supported"))
  else
  let authHeaderField := http.index (http.Header request) "Authorization" in
  if decide (List.length authHeaderField ≠ 1)
  then (request,
        (None, errors.New "unsupported request: wrong length of Authorization header field"))
  else
  let sms1 := getSubmatches (submatcher center) (nth 0 authHeaderField "") in
  if decide (size sms1 ≠ 6)
  then (request, (None, errors.New "bad Authorization header field"))
  else
  let signedHeaderFieldsNames :=
    strings.Split (at_key sms1 "signed_header_fields") ";" in
  verifySigned center request sms1 signedHeaderFieldsNames.

(** The middleware of [attachNewUserAuth]: the request and the token that
    the wrapped handler is served with; an error is logged only. *)
Definition attachNewUserAuth (center : Center) (r : http.Request)
    : http.Request * option BearerTokenMsg :=
  let '(r, (bearerToken, _)) := AuthenticationPassed center r in
  (r, bearerToken).
End Auth.

(** ** Laws of the codecs

    What the round trip of the credential codec asks of the libraries:
    decryption with a private key undoes encryption with its public half,
    the zstd decoder undoes the encoder, and the bytes of a marshalled
    token unmarshal to a token with the same bytes. *)

Class CodecLaws (L : Libs) : Prop :=
  { decrypt_encrypt :
      forall (key : rsa_PrivateKey) (data : ByteSlice) (rnd : Entropy)
             (c : ByteSlice),
        encrypt (rsa_Public key) data rnd = Ok c -> decrypt key c = Ok data;
    DecodeAll_EncodeAll :
      forall (enc : zstd_Encoder) (dec : zstd_Decoder) (data : ByteSlice),
        DecodeAll dec (EncodeAll enc data []) [] = Ok data;
    Unmarshal_Marshal :
      forall (t : BearerTokenMsg) (data : ByteSlice),
        Marshal t = Ok data ->
        exists t', Unmarshal data = Ok t' /\ Marshal t' = Ok data }.

(** What a consumer that reads a request body to its end receives: the
    bytes and the error of the read; a nil body holds no bytes. *)
Definition bodyContent (body : option ReadCloser) : ByteSlice * error :=
  match body with
  | None => ([], None)
  | Some r => snd (ioutil.ReadAll r)
  end.

(** ** A small implementation of the interface

    Used to run the package on concrete requests.  The codecs are
    deliberately simple (a keyed envelope with a size limit for a cipher,
    a stored-block compressor, a two-byte digest, a signer that hashes
    what it is given); the header grammar is the one of
    [authorizationFieldRegexp]. *)

Module Sample.
(** The cipher: an envelope that carries the byte drawn from the random
    source and the key it was sealed for; only that key opens it. *)
Definition sealFor (pub : byte) (data : ByteSlice) (rnd : byte)
    : result ByteSlice :=
  if decide (190 < List.length data)
  then Err (fundamental "crypto/rsa: message too long for RSA public key size")
  else Ok (rnd :: pub :: data).

Definition openWith (priv : byte) (data : ByteSlice) : result ByteSlice :=
  match data with
  | _ :: k :: c =>
      if Byte.eqb k priv then Ok c
      else Err (fundamental "crypto/rsa: decryption error")
  | _ => Err (fundamental "crypto/rsa: decryption error")
  end.

Definition digest (data : ByteSlice) : ByteSlice :=
  let n := foldl (fun acc b => ((acc * 31 + Byte.to_N b) mod 65536)%N) 7%N data in
  [default x00 (Byte.of_N (N.shiftr n 8));
   default x00 (Byte.of_N (N.land n 255))].

Definition parseStamp (layout value : string) : result string :=
  if decide (String.length value = String.length layout)
  then Ok value
  else Err (fundamental "parsing time: cannot parse").

(** Query strings of the form [k1=v1&k2=v2], without escapes. *)
Definition addPair (m : gmap string (list string)) (pair : string)
    : gmap string (list string) :=
  match strings.Split pair "=" with
  | [k] => if decide (k = "") then m else <[k := (default [] (m !! k) ++ [""])%list]> m
  | k :: v :: _ => <[k := (default [] (m !! k) ++ [v])%list]> m
  | [] => m
  end.

Definition Query (u : url.URL) : gmap string (list string) :=
  foldl addPair ∅ (strings.Split (url.RawQuery u) "&").

Definition lower (c : ascii) : ascii :=
  let n := N_of_ascii c in
  if (65 <=? n)%N && (n <=? 90)%N then ascii_of_N (n + 32) else c.

Fixpoint ToLower (s : string) : string :=
  match s with
  | "" => ""
  | String c s' => String (lower c) (ToLower s')
  end.

Definition foldEqual (s t : string) : bool :=
  bool_decide (ToLower s = ToLower t).

(** *** The grammar of the Authorization header *)

Fixpoint CutPrefix (s prefix : string) : option string :=
  match prefix, s with
  | "", _ => Some s
  | String p prefix', String c s' =>
      if Ascii.eqb p c then CutPrefix s' prefix' else None
  | String _ _, "" => None
  end.

(** The longest prefix without the character [stop], and what follows. *)
Fixpoint span (stop : ascii) (s : string) : string * string :=
  match s with
  | "" => ("", "")
  | String c s' =>
      if Ascii.eqb c stop then ("", s)
      else let '(a, b) := span stop s' in (String c a, b)
  end.

(** Cut [s] around the last occurrence of [sep]. *)
Fixpoint cutLast (sep s : string) : option (string * string) :=
  match s with
  | "" => None
  | String c s' =>
      match cutLast sep s' with
      | Some (a, b) => Some (String c a, b)
      | None =>
          match CutPrefix s sep with
          | Some b => Some ("", b)
          | None => None
          end
      end
  end.

(** [[^/]+] or [[^/]*] followed by the literal [lit]. *)
Definition field (nonempty : bool) (lit s : string) : option (string * string) :=
  let '(a, b) := span "/"%char s in
  if nonempty && bool_decide (a = "") then None
  else match CutPrefix b lit with
       | Some rest => Some (a, rest)
       | None => None
       end.

Definition matchHere (s : string) : option (gmap string string) :=
  s ← CutPrefix s "AWS4-HMAC-SHA256 Credential=";
  '(access_key_id, s) ← field true "/" s;
  '(date, s) ← field true "/" s;
  '(region, s) ← field false "/" s;
  '(service, s) ← field true "/aws4_request, SignedHeaders=" s;
  let line := fst (span "010"%char s) in
  '(signed_header_fields, v4_signature) ← cutLast ", Signature=" line;
  Some (<["access_key_id" := access_key_id]>
        (<["date" := date]>
         (<["region" := region]>
          (<["service" := service]>
           (<["signed_header_fields" := signed_header_fields]>
            (<["v4_signature" := v4_signature]> ∅)))))).

(** The leftmost match, as [FindStringSubmatch] has it; no match gives
    the empty map. *)
Fixpoint search (s : string) : gmap string string :=
  match matchHere s with
  | Some m => m
  | None =>
      match s with
      | "" => ∅
      | String _ s' => search s'
      end
  end.

Definition submatches (_ : regexpSubmatcher) (target : string)
    : gmap string string :=
  search target.

(** *** The signer *)

Fixpoint join (sep : string) (l : list string) : string :=
  match l with
  | [] => ""
  | [a] => a
  | a :: rest => a ++ sep ++ join sep rest
  end.

Definition canonical (r : http.Request) : string :=
  http.Method r ++ " " ++ url.Path (http.URL r) ++ " " ++
    join "," (map (fun kv => ToLower (fst kv) ++ ":" ++ join "," (snd kv))
                  (map_to_list (http.Header r))).

Definition signWith (signer : v4.Signer) (r : http.Request)
    (body : option bytes.Reader) (service region : string) (t : string)
    : http.Request * error :=
  let creds := v4.Credentials signer in
  let payload := from_option bytes.unread [] body in
  let r := http.withHeader r (<["X-Amz-Date" := [t]]> (http.Header r)) in
  let signature :=
    hex.EncodeToString
      (digest (list_byte_of_string
                 (credentials.SecretAccessKey creds ++ service ++ region ++
                  canonical r) ++ payload)%list) in
  let authorization :=
    "AWS4-HMAC-SHA256 Credential=" ++ credentials.AccessKeyID creds ++ "/" ++
    substring 0 8 t ++ "/" ++ region ++ "/" ++ service ++
    "/aws4_request, SignedHeaders=" ++
    join ";" (map (fun kv => ToLower (fst kv)) (map_to_list (http.Header r))) ++
    ", Signature=" ++ signature in
  (http.withHeader r (<["Authorization" := [authorization]]> (http.Header r)),
   None).

#[global] Instance libs : Libs :=
  {| BearerTokenMsg := ByteSlice;
     Marshal := Ok;
     Unmarshal := Ok;
     ecdsa_PrivateKey := unit;
     OwnerID := unit;
     rsa_PrivateKey := byte;
     rsa_PublicKey := byte;
     rsa_Public := id;
     Entropy := byte;
     encrypt := sealFor;
     decrypt := openWith;
     sha256Hash := digest;
     zstd_Encoder := unit;
     zstd_Decoder := unit;
     EncodeAll := fun _ src dst => (dst ++ src)%list;
     DecodeAll := fun _ input dst => Ok (dst ++ input)%list;
     time_Time := string;
     time_Parse := parseStamp;
     URL_Query := Query;
     EqualFold := foldEqual;
     getSubmatches := submatches;
     Sign := signWith |}.

Definition blank : Center :=
  {| submatcher := {| re := authorizationFieldRegexp |};
     zstdEncoder := tt;
     zstdDecoder := tt;
     neofsKeys_PrivateKey := tt;
     ownerID := tt;
     wifString := "";
     userAuthKeys_PrivateKey := x00;
     userAuthKeys_PublicKey := x00 |}.

Definition center : Center := SetUserAuthKeys blank x5a.

(** The token of the scenario, its credential pair, and the request
    [GET /bucket/object] signed over [host;x-amz-date]. *)
Definition token : ByteSlice :=
  list_byte_of_string "{subject:alice, scope:read}".

Definition accessKeyID : string :=
  match packBearerToken center token x11 with
  | Ok (k, _) => k
  | Err _ => ""
  end.

Definition secretAccessKey : string :=
  match packBearerToken center token x11 with
  | Ok (_, s) => s
  | Err _ => ""
  end.

Definition unsigned (body : option ReadCloser) : http.Request :=
  {| http.Method := "GET";
     http.URL := {| url.Scheme := "http"; url.Host := "gate";
                    url.Path := "/bucket/object"; url.RawQuery := "" |};
     http.Header := <["Host" := ["gate"]]> (<["X-Amz-Date" := ["20201030T200700Z"]]> ∅);
     http.Body := body;
     http.Host := "gate" |}.

(** What a client holding the credential pair sends. *)
Definition signed (body : option ReadCloser) : http.Request :=
  let payload := from_option pending [] body in
  let signer :=
    v4.NewSigner (credentials.NewStaticCredentials accessKeyID secretAccessKey "") in
  http.withBody
    (fst (signWith signer (unsigned None) (Some (bytes.NewReader payload))
               "s3" "us-east-1" "20201030T200700Z"))
    body.

(** The same request with another [Signature] field. *)
Definition forged (body : option ReadCloser) : http.Request :=
  http.withHeader (signed body)
    (<["Authorization" :=
         ["AWS4-HMAC-SHA256 Credential=" ++ accessKeyID ++
          "/20201030/us-east-1/s3/aws4_request, SignedHeaders=host;x-amz-date, Signature=0000"]]>
       (http.Header (signed body))).

(** The pre-signed form: the algorithm is selected in the query. *)
Definition presigned : http.Request :=
  {| http.Method := "GET";
     http.URL := {| url.Scheme := "http"; url.Host := "gate";
                    url.Path := "/bucket/object";
                    url.RawQuery := "X-Amz-Algorithm=AWS4-HMAC-SHA256&X-Amz-Expires=60" |};
     http.Header := http.Header (signed None);
     http.Body := None;
     http.Host := "gate" |}.

(** The signed request with its Authorization value sent twice. *)
Definition doubled : http.Request :=
  http.withHeader (signed None)
    (<["Authorization" :=
         (http.index (http.Header (signed None)) "Authorization" ++
          http.index (http.Header (signed None)) "Authorization")%list]>
       (http.Header (signed None))).

Definition payload : ReadCloser :=
  {| pending := list_byte_of_string "hello"; failure := None |}.

End Sample.

(** ** The identity keys of the centre

    [SetNeoFSKeys] and the four getters.  The record [Center] above has no
    place for [neofsKeys.PublicKey]; [Keyed] is the centre together with
    that field.  What the functions take from elsewhere: the public half of
    an ECDSA key, [refs.NewOwnerID] and [crypto.WIFEncode]. *)

Class IdentityLibs (L : Libs) : Type :=
  { ecdsa_PublicKey : Type;
    ecdsa_Public : ecdsa_PrivateKey -> ecdsa_PublicKey;
    NewOwnerID : ecdsa_PublicKey -> result OwnerID;
    WIFEncode : ecdsa_PrivateKey -> result string }.

Section Identity.
Context {L : Libs} {I : IdentityLibs L}.

Record Keyed : Type :=
  { centerOf : Center; neofsKeys_PublicKey : ecdsa_PublicKey }.

(** [center.neofsKeys.PrivateKey = key]. *)
Definition assignPrivateKey (center : Keyed) (key : ecdsa_PrivateKey) : Keyed :=
  {| centerOf :=
       {| submatcher := submatcher (centerOf center);
          zstdEncoder := zstdEncoder (centerOf center);
          zstdDecoder := zstdDecoder (centerOf center);
          neofsKeys_PrivateKey := key;
          ownerID := ownerID (centerOf center);
          wifString := wifString (centerOf center);
          userAuthKeys_PrivateKey := userAuthKeys_PrivateKey (centerOf center);
          userAuthKeys_PublicKey := userAuthKeys_PublicKey (centerOf center) |};
     neofsKeys_PublicKey := neofsKeys_PublicKey center |}.

(** The three assignments that end [SetNeoFSKeys]. *)
Definition assignIdentity (center : Keyed) (publicKey : ecdsa_PublicKey)
    (oid : OwnerID) (wif : string) : Keyed :=
  {| centerOf :=
       {| submatcher := submatcher (centerOf center);
          zstdEncoder := zstdEncoder (centerOf center);
          zstdDecoder := zstdDecoder (centerOf center);
          neofsKeys_PrivateKey := neofsKeys_PrivateKey (centerOf center);
          ownerID := oid;
          wifString := wif;
          userAuthKeys_PrivateKey := userAuthKeys_PrivateKey (centerOf center);
          userAuthKeys_PublicKey := userAuthKeys_PublicKey (centerOf center) |};
     neofsKeys_PublicKey := publicKey |}.

(** [SetNeoFSKeys]: the centre it leaves behind, and its error. *)
Definition SetNeoFSKeys (center : Keyed) (key : ecdsa_PrivateKey)
    : Keyed * error :=
  let publicKey := ecdsa_Public key in
  match NewOwnerID publicKey with
  | Err e => (center, errors.Wrap (Some e) "failed to get OwnerID")
  | Ok oid =>
      let center := assignPrivateKey center key in
      match WIFEncode key with
      | Err e =>
          (center, errors.Wrap (Some e) "failed to get WIF string from given key")
      | Ok wif => (assignIdentity center publicKey oid wif, None)
      end
  end.

Definition GetNeoFSPrivateKey (center : Keyed) : ecdsa_PrivateKey :=
  neofsKeys_PrivateKey (centerOf center).

Definition GetNeoFSPublicKey (center : Keyed) : ecdsa_PublicKey :=
  neofsKeys_PublicKey center.

Definition GetOwnerID (center : Keyed) : OwnerID := ownerID (centerOf center).

Definition GetWIFString (center : Keyed) : string := wifString (centerOf center).

(** [SetUserAuthKeys] on the centre with its identity. *)
Definition withUserAuthKeys (center : Keyed) (key : rsa_PrivateKey) : Keyed :=
  {| centerOf := SetUserAuthKeys (centerOf center) key;
     neofsKeys_PublicKey := neofsKeys_PublicKey center |}.
End Identity.

(** ** Vocabulary of the further properties *)

(** [strings.Join(elems, sep)]. *)
Fixpoint strings_Join (elems : list string) (sep : string) : string :=
  match elems with
  | [] => ""
  | [a] => a
  | a :: rest => a ++ sep ++ strings_Join rest sep
  end.

(** The slice expression [s[n:]], with [n] cut off at the length of [s]. *)
Fixpoint sliceFrom (n : nat) (s : string) : string :=
  match n, s with
  | O, _ => s
  | S k, String _ s' => sliceFrom k s'
  | S _, "" => ""
  end.

(** The number of times the character [c] occurs in [s]. *)
Fixpoint countChar (c : ascii) (s : string) : nat :=
  match s with
  | "" => 0
  | String a s' => (if Ascii.eqb a c then 1 else 0) + countChar c s'
  end.

(** A character that [hex.fromHexChar] accepts. *)
Definition isHexDigit (c : ascii) : bool :=
  match hex.fromHexChar c with
  | Some _ => true
  | None => false
  end.

(** A character of [hex.hextable]. *)
Definition isLowerHexDigit (c : ascii) : bool :=
  existsb (Ascii.eqb c) (list_ascii_of_string hex.hextable).

Section Vocabulary.
Context {L : Libs}.

(** The request passes every step of [AuthenticationPassed] up to the
    comparison of signatures: it is not pre-signed, [value] is its one
    Authorization value and has the six captures, its date parses to
    [signatureDateTime], its access key unpacks to [bearerToken] and
    [secretAccessKey], its body reads without error, and the signer leaves
    [otherRequest'] without reporting an error. *)
Definition reachesComparison (center : Center) (request : http.Request)
    (value : string) (signatureDateTime : time_Time)
    (bearerToken : BearerTokenMsg) (secretAccessKey : string)
    (otherRequest' : http.Request) : Prop :=
  let sms1 := getSubmatches (submatcher center) value in
  let names := strings.Split (at_key sms1 "signed_header_fields") ";" in
  url.Get (URL_Query (http.URL request)) "X-Amz-Algorithm" <> "AWS4-HMAC-SHA256"
  /\ http.index (http.Header request) "Authorization" = [value]
  /\ size sms1 = 6
  /\ time_Parse "20060102T150405Z" (http.Get (http.Header request) "X-Amz-Date")
       = Ok signatureDateTime
  /\ unpackBearerToken center (at_key sms1 "access_key_id")
       = Ok (bearerToken, secretAccessKey)
  /\ snd (bodyContent (http.Body request)) = None
  /\ Sign (v4.NewSigner
             (credentials.NewStaticCredentials (at_key sms1 "access_key_id")
                secretAccessKey ""))
          (http.withBody (referenceRequest request names) (drainedBody request))
          (fst (snd (readAndKeepBody request)))
          (at_key sms1 "service") (at_key sms1 "region") signatureDateTime
       = (otherRequest', None).

(** The signature presented in [value] and the one the signer left in
    [otherRequest']. *)
Definition presentedSignature (center : Center) (value : string) : string :=
  at_key (getSubmatches (submatcher center) value) "v4_signature".

Definition recomputedSignature (center : Center) (otherRequest' : http.Request)
    : string :=
  at_key (getSubmatches (submatcher center)
            (http.Get (http.Header otherRequest') "Authorization"))
         "v4_signature".
End Vocabulary.

(** ** Further concrete cases *)

Module Cases.
(** The libraries of [Sample] with identity keys that can be told apart and
    a signer that refuses an empty region. *)
Definition signStrict (signer : v4.Signer) (r : http.Request)
    (body : option bytes.Reader) (service region : string) (t : string)
    : http.Request * error :=
  if decide (region = "")
  then (r, Some (fundamental "MissingRegion: could not find region configuration"))
  else Sample.signWith signer r body service region t.

Definition libs : Libs :=
  {| BearerTokenMsg := ByteSlice;
     Marshal := Ok;
     Unmarshal := Ok;
     ecdsa_PrivateKey := nat;
     OwnerID := string;
     rsa_PrivateKey := byte;
     rsa_PublicKey := byte;
     rsa_Public := id;
     Entropy := byte;
     encrypt := Sample.sealFor;
     decrypt := Sample.openWith;
     sha256Hash := Sample.digest;
     zstd_Encoder := unit;
     zstd_Decoder := unit;
     EncodeAll := fun _ src dst => (dst ++ src)%list;
     DecodeAll := fun _ input dst => Ok (dst ++ input)%list;
     time_Time := string;
     time_Parse := Sample.parseStamp;
     URL_Query := Sample.Query;
     EqualFold := Sample.foldEqual;
     getSubmatches := Sample.submatches;
     Sign := signStrict |}.

(** Identity keys: the public half is the double of the private key, an
    owner is named after the public key, and keys from 100 on have no WIF
    form; the key 0 has no owner. *)
Definition identity : IdentityLibs libs :=
  @Build_IdentityLibs libs nat
    (fun key : nat => 2 * key)
    (fun pub : nat =>
       if decide (pub = 0) then Err (fundamental "unsupported public key")
       else Ok (String (ascii_of_nat (65 + pub)) ""))
    (fun key : nat =>
       if decide (100 <= key) then Err (fundamental "invalid private key")
       else Ok (String (ascii_of_nat (97 + key)) "")).

Definition center : @Center libs :=
  @Build_Center libs {| re := authorizationFieldRegexp |} tt tt 1 "C" "b" x5a x5a.

Definition keyed : @Keyed libs identity :=
  @Build_Keyed libs identity center 2.

(** A request like [Sample.signed] with the given Authorization value and
    date. *)
Definition sent (authorization date : string) (body : option ReadCloser)
    : http.Request :=
  {| http.Method := "GET";
     http.URL := {| url.Scheme := "http"; url.Host := "gate";
                    url.Path := "/bucket/object"; url.RawQuery := "" |};
     http.Header :=
       <["Authorization" := [authorization]]>
         (<["Host" := ["gate"]]> (<["X-Amz-Date" := [date]]> ∅));
     http.Body := body;
     http.Host := "gate" |}.

Definition credential (accessKeyID region : string) : string :=
  "AWS4-HMAC-SHA256 Credential=" ++ accessKeyID ++ "/20201030/" ++ region ++
  "/s3/aws4_request, SignedHeaders=host;x-amz-date, Signature=0000".

(** A body whose read breaks off after two bytes. *)
Definition broken : ReadCloser :=
  {| pending := [x68; x65];
     failure := Some (fundamental "unexpected EOF") |}.

(** A request whose Authorization value names no signed header: the
    field [SignedHeaders] is empty.  [bareSignature] is the signature that
    the signer of [Sample] computes for it. *)
Definition bare (signature : string) : http.Request :=
  sent ("AWS4-HMAC-SHA256 Credential=" ++ Sample.accessKeyID ++
        "/20201030/us-east-1/s3/aws4_request, SignedHeaders=, Signature=" ++
        signature)
       "20201030T200700Z" None.

Definition bareSignature : string :=
  recomputedSignature Sample.center
    (fst (Sample.signWith
            (v4.NewSigner
               (credentials.NewStaticCredentials Sample.accessKeyID
                  Sample.secretAccessKey ""))
            (http.withBody (referenceRequest (bare "") [""]) None)
            (Some bytes.zero) "s3" "us-east-1" "20201030T200700Z")).

Definition upper (c : ascii) : ascii :=
  let n := N_of_ascii c in
  if (97 <=? n)%N && (n <=? 122)%N then ascii_of_N (n - 32) else c.

Fixpoint ToUpper (s : string) : string :=
  match s with
  | "" => ""
  | String c s' => String (upper c) (ToUpper s')
  end.
End Cases.

(** * Properties *)

(** ** encoding/hex *)

Lemma hex_decode_byte (b : byte) (rest : string) :
  hex.DecodeString
    (String (hex.digit (N.shiftr (Byte.to_N b) 4))
            (String (hex.digit (N.land (Byte.to_N b) 15)) rest)) =
  match hex.DecodeString rest with
  | Err e => Err e
  | Ok out => Ok (b :: out)
  end.
Proof. destruct b; reflexivity. Qed.

Lemma hex_DecodeString_EncodeToString (src : ByteSlice) :
  hex.DecodeString (hex.EncodeToString src) = Ok src.
Proof.
  induction src as [|b src IH].
  - reflexivity.
  - change (hex.EncodeToString (b :: src))
      with (String (hex.digit (N.shiftr (Byte.to_N b) 4))
              (String (hex.digit (N.land (Byte.to_N b) 15))
                 (hex.EncodeToString src))).
    rewrite hex_decode_byte, IH. reflexivity.
Qed.

(** ** strings.Split *)

Lemma genSplit_not_nil (sep s : string) :
  forall (skip : nat) (cur : string), strings.genSplit sep skip cur s <> [].
Proof.
  induction s as [|c s IH]; intros skip cur.
  - simpl. congruence.
  - cbn [strings.genSplit]. destruct skip as [|k].
    + destruct (strings.HasPrefix (String c s) sep); [congruence | apply IH].
    + apply IH.
Qed.

(** Splitting on a non-empty separator never gives the empty list: the
    empty string splits into one empty piece. *)
Lemma Split_not_nil (s sep : string) : sep <> "" -> strings.Split s sep <> [].
Proof.
  intros Hsep. unfold strings.Split.
  destruct (decide (sep = "")); [contradiction | apply genSplit_not_nil].
Qed.

(** ** The header filter *)

Section HeaderFilter.
Context {L : Libs}.
Implicit Types (header out : gmap string (list string)) (names : list string).

Lemma keepSigned_lookup names hfn hfvs out (k : string) :
  keepSigned names hfn hfvs out !! k =
    if decide (k = hfn)
    then (if signedName names hfn then Some hfvs else out !! k)
    else out !! k.
Proof.
  unfold keepSigned, signedName. revert out.
  induction names as [|shfn names IH]; intros out; simpl.
  - by destruct (decide (k = hfn)).
  - rewrite IH. destruct (EqualFold hfn shfn) eqn:Hfold; simpl.
    + destruct (decide (k = hfn)) as [->|Hne].
      * rewrite lookup_insert_eq. by destruct (existsb _ names).
      * by rewrite lookup_insert_ne.
    + done.
Qed.

Lemma signedHeadersOf_lookup header names (k : string) :
  signedHeadersOf header names !! k =
    if signedName names k then header !! k else None.
Proof.
  unfold signedHeadersOf.
  apply (map_fold_weak_ind
           (fun out header =>
              out !! k = if signedName names k then header !! k else None)).
  - rewrite !lookup_empty. by destruct (signedName names k).
  - intros hfn hfvs m out Hfresh IH.
    rewrite keepSigned_lookup. destruct (decide (k = hfn)) as [->|Hne].
    + rewrite lookup_insert_eq. destruct (signedName names hfn); [done|].
      by rewrite IH.
    + rewrite lookup_insert_ne by done. exact IH.
Qed.
End HeaderFilter.

(** ** The claims *)

Section Claims.
Context {L : Libs}.

(** The signer has reported no error and the signatures differ: the
    comparison hands [errors.Wrap] the nil error of the signer, and so
    returns neither a token nor an error. *)
Lemma signAndCompare_mismatch (center : Center) (sms1 : gmap string string)
    (bearerToken : BearerTokenMsg) (signer : v4.Signer)
    (otherRequest otherRequest' : http.Request) (body : option bytes.Reader)
    (signatureDateTime : time_Time) :
  Sign signer otherRequest body (at_key sms1 "service") (at_key sms1 "region")
       signatureDateTime = (otherRequest', None) ->
  at_key sms1 "v4_signature" <>
    at_key (getSubmatches (submatcher center)
              (http.Get (http.Header otherRequest') "Authorization"))
           "v4_signature" ->
  signAndCompare center sms1 bearerToken signer otherRequest body
                 signatureDateTime = (None, None).
Proof.
  intros Hsign Hdiff. unfold signAndCompare. rewrite Hsign.
  destruct (decide _) as [_|Heq]; [reflexivity | contradiction].
Qed.

(** The comparison, in closed form: the branch that was meant to reject
    returns the signer's nil error. *)
Lemma signAndCompare_outcome (center : Center) (sms1 : gmap string string)
    (bearerToken : BearerTokenMsg) (signer : v4.Signer)
    (otherRequest : http.Request) (body : option bytes.Reader)
    (signatureDateTime : time_Time) :
  signAndCompare center sms1 bearerToken signer otherRequest body
                 signatureDateTime =
  match Sign signer otherRequest body (at_key sms1 "service")
             (at_key sms1 "region") signatureDateTime with
  | (_, Some e) =>
      (None, Some (withMessage e "failed to sign temporary HTTP request"))
  | (otherRequest', None) =>
      if decide (at_key sms1 "v4_signature"
                 = at_key (getSubmatches (submatcher center)
                             (http.Get (http.Header otherRequest') "Authorization"))
                          "v4_signature")
      then (Some bearerToken, None)
      else (None, None)
  end.
Proof.
  unfold signAndCompare.
  destruct (Sign _ _ _ _ _ _) as [otherRequest' [e|]]; [reflexivity|].
  destruct (decide (_ <> _)) as [Hne|Heq]; destruct (decide (_ = _)) as [He|Hn];
    try reflexivity; try contradiction.
Qed.

(** The steps of [AuthenticationPassed] up to the split, for a request
    that is not pre-signed and carries one well-formed Authorization
    value. *)
Lemma AuthenticationPassed_wellformed (center : Center)
    (request : http.Request) (value : string) :
  url.Get (URL_Query (http.URL request)) "X-Amz-Algorithm" <> "AWS4-HMAC-SHA256" ->
  http.index (http.Header request) "Authorization" = [value] ->
  size (getSubmatches (submatcher center) value) = 6 ->
  AuthenticationPassed center request =
    verifySigned center request (getSubmatches (submatcher center) value)
      (strings.Split
         (at_key (getSubmatches (submatcher center) value) "signed_header_fields")
         ";").
Proof.
  intros Hq Hauth Hsize. unfold AuthenticationPassed.
  destruct (decide (url.Get _ _ = _)) as [|_]; [contradiction|].
  rewrite Hauth. simpl.
  destruct (decide (1 <> 1)) as [|_]; [contradiction|].
  destruct (decide (size _ <> 6)) as [|_]; [contradiction|].
  reflexivity.
Qed.

(** The steps of [verifySigned] up to the call of the signer. *)
Lemma verifySigned_unpacked (center : Center) (request : http.Request)
    (sms1 : gmap string string) (names : list string)
    (signatureDateTime : time_Time) (bearerToken : BearerTokenMsg)
    (secretAccessKey : string) :
  names <> [] ->
  time_Parse "20060102T150405Z" (http.Get (http.Header request) "X-Amz-Date")
    = Ok signatureDateTime ->
  unpackBearerToken center (at_key sms1 "access_key_id")
    = Ok (bearerToken, secretAccessKey) ->
  snd (bodyContent (http.Body request)) = None ->
  verifySigned center request sms1 names =
    (fst (readAndKeepBody request),
     signAndCompare center sms1 bearerToken
       (v4.NewSigner
          (credentials.NewStaticCredentials (at_key sms1 "access_key_id")
             secretAccessKey ""))
       (http.withBody (referenceRequest request names) (drainedBody request))
       (fst (snd (readAndKeepBody request)))
       signatureDateTime).
Proof.
  intros Hnames Htime Hunpack Hbody. unfold verifySigned.
  destruct (decide (List.length names = 0)) as [Hlen|_].
  { destruct names; [contradiction | discriminate]. }
  rewrite Htime, Hunpack.
  unfold readAndKeepBody, bodyContent in *.
  destruct (http.Body request) as [body|]; [|reflexivity].
  simpl in *. rewrite Hbody. reflexivity.
Qed.

(** A request that is not pre-signed, carries one well-formed
    Authorization value, a date that parses, an access key that unpacks
    and a body that reads without error reaches the signer. *)
Lemma AuthenticationPassed_signs (center : Center) (request : http.Request)
    (value : string) (signatureDateTime : time_Time)
    (bearerToken : BearerTokenMsg) (secretAccessKey : string) :
  let sms1 := getSubmatches (submatcher center) value in
  let names := strings.Split (at_key sms1 "signed_header_fields") ";" in
  url.Get (URL_Query (http.URL request)) "X-Amz-Algorithm" <> "AWS4-HMAC-SHA256" ->
  http.index (http.Header request) "Authorization" = [value] ->
  size sms1 = 6 ->
  time_Parse "20060102T150405Z" (http.Get (http.Header request) "X-Amz-Date")
    = Ok signatureDateTime ->
  unpackBearerToken center (at_key sms1 "access_key_id")
    = Ok (bearerToken, secretAccessKey) ->
  snd (bodyContent (http.Body request)) = None ->
  AuthenticationPassed center request =
    (fst (readAndKeepBody request),
     signAndCompare center sms1 bearerToken
       (v4.NewSigner
          (credentials.NewStaticCredentials (at_key sms1 "access_key_id")
             secretAccessKey ""))
       (http.withBody (referenceRequest request names) (drainedBody request))
       (fst (snd (readAndKeepBody request)))
       signatureDateTime).
Proof.
  intros sms1 names Hq Hauth Hsize Htime Hunpack Hbody.
  rewrite (AuthenticationPassed_wellformed center request value Hq Hauth Hsize).
  apply verifySigned_unpacked; try assumption.
  apply Split_not_nil. discriminate.
Qed.

(** C1 (as the code has it).  With every earlier step passed, the signer
    reporting no error and the recomputed signature different from the
    one presented, [AuthenticationPassed] returns the nil token and the
    nil error: the rejection is built by [errors.Wrap] from the signer's
    nil error, and is therefore no error at all. *)
Theorem AuthenticationPassed_mismatch_returns_no_error (center : Center)
    (request otherRequest' : http.Request) (value : string)
    (signatureDateTime : time_Time) (bearerToken : BearerTokenMsg)
    (secretAccessKey : string) :
  let sms1 := getSubmatches (submatcher center) value in
  let names := strings.Split (at_key sms1 "signed_header_fields") ";" in
  url.Get (URL_Query (http.URL request)) "X-Amz-Algorithm" <> "AWS4-HMAC-SHA256" ->
  http.index (http.Header request) "Authorization" = [value] ->
  size sms1 = 6 ->
  time_Parse "20060102T150405Z" (http.Get (http.Header request) "X-Amz-Date")
    = Ok signatureDateTime ->
  unpackBearerToken center (at_key sms1 "access_key_id")
    = Ok (bearerToken, secretAccessKey) ->
  snd (bodyContent (http.Body request)) = None ->
  Sign (v4.NewSigner
          (credentials.NewStaticCredentials (at_key sms1 "access_key_id")
             secretAccessKey ""))
       (http.withBody (referenceRequest request names) (drainedBody request))
       (fst (snd (readAndKeepBody request)))
       (at_key sms1 "service") (at_key sms1 "region") signatureDateTime
    = (otherRequest', None) ->
  at_key sms1 "v4_signature" <>
    at_key (getSubmatches (submatcher center)
              (http.Get (http.Header otherRequest') "Authorization"))
           "v4_signature" ->
  snd (AuthenticationPassed center request) = (None, None).
Proof.
  intros sms1 names Hq Hauth Hsize Htime Hunpack Hbody Hsign Hdiff.
  rewrite (AuthenticationPassed_signs center request value signatureDateTime
             bearerToken secretAccessKey Hq Hauth Hsize Htime Hunpack Hbody).
  simpl. eapply signAndCompare_mismatch; eassumption.
Qed.

(** C2.  Round trip of the credential codec.  For a centre whose key pair
    was set by [SetUserAuthKeys] and libraries that satisfy the codec
    laws: unpacking the access key that [packBearerToken] produced for
    [T] succeeds, gives a token with the serialized bytes of [T], and
    gives the secret access key that packing gave. *)
Theorem unpack_pack_round_trip (Laws : CodecLaws L) (center : Center)
    (key : rsa_PrivateKey) (T : BearerTokenMsg) (rnd : Entropy)
    (accessKeyID secretAccessKey : string) :
  packBearerToken (SetUserAuthKeys center key) T rnd
    = Ok (accessKeyID, secretAccessKey) ->
  exists T',
    unpackBearerToken (SetUserAuthKeys center key) accessKeyID
      = Ok (T', secretAccessKey)
    /\ Marshal T' = Marshal T.
Proof.
  unfold packBearerToken, unpackBearerToken, compress, decompress. simpl.
  destruct (Marshal T) as [data|e] eqn:Hmarshal; [|discriminate].
  destruct (encrypt _ _ rnd) as [encryptedKeyID|e] eqn:Hencrypt; [|discriminate].
  intros [= <- <-].
  rewrite hex_DecodeString_EncodeToString.
  rewrite (decrypt_encrypt _ _ _ _ Hencrypt), DecodeAll_EncodeAll.
  destruct (Unmarshal_Marshal T data Hmarshal) as (T' & Hunmarshal & Hsame).
  exists T'. rewrite Hunmarshal. split; [reflexivity | exact Hsame].
Qed.


(** C4.  A request whose query selects [AWS4-HMAC-SHA256] as
    [X-Amz-Algorithm] is rejected as unsupported whatever its headers
    are: with any header map in place of its own, the outcome is the
    same error and the request is left as it was. *)
Theorem AuthenticationPassed_rejects_presigned (center : Center)
    (request : http.Request) (header : gmap string (list string)) :
  url.Get (URL_Query (http.URL request)) "X-Amz-Algorithm" = "AWS4-HMAC-SHA256" ->
  AuthenticationPassed center (http.withHeader request header) =
    (http.withHeader request header,
     (None, errors.New "pre-signed form of request is not supported")).
Proof.
  intros Hq. unfold AuthenticationPassed. simpl.
  destruct (decide _) as [_|Hne]; [reflexivity | contradiction].
Qed.

(** C5.  A request that passes the pre-signed check is rejected whenever
    the number of its Authorization values is not one, be it none or
    several. *)
Theorem AuthenticationPassed_rejects_authorization_count (center : Center)
    (request : http.Request) :
  url.Get (URL_Query (http.URL request)) "X-Amz-Algorithm" <> "AWS4-HMAC-SHA256" ->
  List.length (http.index (http.Header request) "Authorization") <> 1 ->
  AuthenticationPassed center request =
    (request,
     (None,
      errors.New "unsupported request: wrong length of Authorization header field")).
Proof.
  intros Hq Hlen. unfold AuthenticationPassed.
  destruct (decide (url.Get _ _ = _)) as [|_]; [contradiction|].
  destruct (decide (List.length _ <> 1)) as [_|Hone]; [reflexivity | contradiction].
Qed.

(** C6.  The reference request holds exactly the headers of the request
    whose name folds to one of the signed header names, with the values
    the request has for them; a header that folds to none of the names
    is absent, and a name that matches no header adds nothing. *)
Theorem referenceRequest_signed_headers_only (request : http.Request)
    (signedHeaderFieldsNames : list string) :
  (forall (hfn : string) (hfvs : list string),
      http.Header (referenceRequest request signedHeaderFieldsNames) !! hfn
        = Some hfvs
      <-> http.Header request !! hfn = Some hfvs
          /\ exists shfn,
               shfn ∈ signedHeaderFieldsNames /\ EqualFold hfn shfn = true)
  /\ (forall hfn : string,
      (forall shfn, shfn ∈ signedHeaderFieldsNames -> EqualFold hfn shfn = false) ->
      http.Header (referenceRequest request signedHeaderFieldsNames) !! hfn = None)
  /\ (forall hfn : string,
      http.Header request !! hfn = None ->
      http.Header (referenceRequest request signedHeaderFieldsNames) !! hfn = None).
Proof.
  assert (Hsigned : forall hfn,
             signedName signedHeaderFieldsNames hfn = true
             <-> exists shfn,
                   shfn ∈ signedHeaderFieldsNames /\ EqualFold hfn shfn = true).
  { intros hfn. unfold signedName. rewrite existsb_exists.
    split; intros (shfn & Hin & Hfold); exists shfn;
      (split; [by apply list_elem_of_In | done]). }
  unfold referenceRequest. simpl. split; [|split].
  - intros hfn hfvs. rewrite signedHeadersOf_lookup. split.
    + intros Hkept.
      destruct (signedName signedHeaderFieldsNames hfn) eqn:Hs; [|discriminate].
      split; [exact Hkept | by apply Hsigned].
    + intros [Hin Hex]. apply Hsigned in Hex. by rewrite Hex.
  - intros hfn Hnone. rewrite signedHeadersOf_lookup.
    destruct (signedName signedHeaderFieldsNames hfn) eqn:Hs; [|done].
    apply Hsigned in Hs as (shfn & Hin & Hfold).
    rewrite (Hnone shfn Hin) in Hfold. discriminate.
  - intros hfn Habsent. rewrite signedHeadersOf_lookup, Habsent.
    by destruct (signedName signedHeaderFieldsNames hfn).
Qed.

(** ** The request that authentication leaves behind *)

Lemma readAndKeepBody_restores (request : http.Request) :
  snd (bodyContent (http.Body request)) = None ->
  let request' := fst (readAndKeepBody request) in
  http.Method request' = http.Method request
  /\ http.URL request' = http.URL request
  /\ http.Header request' = http.Header request
  /\ http.Host request' = http.Host request
  /\ bodyContent (http.Body request') = bodyContent (http.Body request).
Proof.
  unfold readAndKeepBody, bodyContent.
  destruct (http.Body request) as [body|] eqn:Hbody; simpl.
  - intros ->. simpl. unfold bytes.unread. simpl. by rewrite drop_0.
  - intros _. by rewrite Hbody.
Qed.

Lemma verifySigned_request (center : Center) (request : http.Request)
    (sms1 : gmap string string) (names : list string) :
  fst (verifySigned center request sms1 names) = request
  \/ fst (verifySigned center request sms1 names) = fst (readAndKeepBody request).
Proof.
  unfold verifySigned.
  destruct (decide _); [by left|].
  destruct (time_Parse _ _); [|by left].
  destruct (unpackBearerToken _ _) as [[bearerToken secretAccessKey]|]; [|by left].
  destruct (readAndKeepBody request) as [request' [body [e|]]]; by right.
Qed.

Lemma AuthenticationPassed_request (center : Center) (request : http.Request) :
  fst (AuthenticationPassed center request) = request
  \/ fst (AuthenticationPassed center request) = fst (readAndKeepBody request).
Proof.
  unfold AuthenticationPassed.
  destruct (decide (url.Get _ _ = _)); [by left|].
  destruct (decide (List.length _ <> 1)); [by left|].
  destruct (decide (size _ <> 6)); [by left|].
  apply verifySigned_request.
Qed.

(** The request that the wrapped handler is served with is the one that
    [AuthenticationPassed] leaves behind. *)
Lemma attachNewUserAuth_request (center : Center) (r : http.Request) :
  fst (attachNewUserAuth center r) = fst (AuthenticationPassed center r).
Proof.
  unfold attachNewUserAuth.
  by destruct (AuthenticationPassed center r) as [r' [bearerToken e]].
Qed.

(** C7.  Authentication leaves the request with its method, URL, headers
    and host as they were, and with a body from which the next reader
    receives, once and in full, the bytes that the original body held.
    The body is taken to be one that reads to its end without error. *)
Theorem AuthenticationPassed_keeps_request (center : Center)
    (request : http.Request) :
  snd (bodyContent (http.Body request)) = None ->
  let request' := fst (AuthenticationPassed center request) in
  http.Method request' = http.Method request
  /\ http.URL request' = http.URL request
  /\ http.Header request' = http.Header request
  /\ http.Host request' = http.Host request
  /\ bodyContent (http.Body request')
       = (fst (bodyContent (http.Body request)), None).
Proof.
  intros Hread request'.
  assert (Hsame : bodyContent (http.Body request)
                  = (fst (bodyContent (http.Body request)), None)).
  { rewrite <- Hread. by destruct (bodyContent (http.Body request)). }
  subst request'.
  destruct (AuthenticationPassed_request center request) as [-> | ->].
  - by rewrite <- Hsame.
  - destruct (readAndKeepBody_restores request Hread)
      as (Hm & Hu & Hh & Hhost & Hb).
    rewrite Hm, Hu, Hh, Hhost, Hb. by rewrite <- Hsame.
Qed.

(** C8 (as the code has it).  The test for an empty list of signed header
    names never sees one: an empty [signed_header_fields] capture splits
    into the single name [""].  A request whose SignedHeaders field is
    empty therefore passes the test, goes on through date, access key and
    body to the signer, and is authenticated when the signature that the
    signer computes for the reference request (built for the one name
    [""]) is the one presented. *)
Theorem AuthenticationPassed_accepts_empty_signed_headers (center : Center)
    (request otherRequest' : http.Request) (value : string)
    (signatureDateTime : time_Time) (bearerToken : BearerTokenMsg)
    (secretAccessKey : string) :
  let sms1 := getSubmatches (submatcher center) value in
  url.Get (URL_Query (http.URL request)) "X-Amz-Algorithm" <> "AWS4-HMAC-SHA256" ->
  http.index (http.Header request) "Authorization" = [value] ->
  size sms1 = 6 ->
  at_key sms1 "signed_header_fields" = "" ->
  time_Parse "20060102T150405Z" (http.Get (http.Header request) "X-Amz-Date")
    = Ok signatureDateTime ->
  unpackBearerToken center (at_key sms1 "access_key_id")
    = Ok (bearerToken, secretAccessKey) ->
  snd (bodyContent (http.Body request)) = None ->
  Sign (v4.NewSigner
          (credentials.NewStaticCredentials (at_key sms1 "access_key_id")
             secretAccessKey ""))
       (http.withBody (referenceRequest request [""]) (drainedBody request))
       (fst (snd (readAndKeepBody request)))
       (at_key sms1 "service") (at_key sms1 "region") signatureDateTime
    = (otherRequest', None) ->
  at_key sms1 "v4_signature" =
    at_key (getSubmatches (submatcher center)
              (http.Get (http.Header otherRequest') "Authorization"))
           "v4_signature" ->
  strings.Split (at_key sms1 "signed_header_fields") ";" = [""]
  /\ snd (AuthenticationPassed center request) = (Some bearerToken, None).
Proof.
  intros sms1 Hq Hauth Hsize Hempty Htime Hunpack Hbody Hsign Hsig.
  assert (Hsplit : strings.Split (at_key sms1 "signed_header_fields") ";" = [""]).
  { by rewrite Hempty. }
  split; [exact Hsplit|].
  rewrite (AuthenticationPassed_signs center request value signatureDateTime
             bearerToken secretAccessKey Hq Hauth Hsize Htime Hunpack Hbody).
  fold sms1. rewrite Hsplit. simpl.
  rewrite signAndCompare_outcome, Hsign.
  destruct (decide _) as [_|Hne]; [reflexivity | contradiction].
Qed.

(** C10.  On a request whose body is nil, [readAndKeepBody] returns the
    empty reader and no error and leaves the request as it is.  A request
    that has passed the earlier steps then has its reference request
    signed with that reader for a body, that is with the empty payload,
    and the outcome of authentication is what follows from the signer's
    reply: its error wrapped, or the comparison of the signature it left
    with the one presented. *)
Theorem readAndKeepBody_nil_body (center : Center) (request : http.Request)
    (value : string) (signatureDateTime : time_Time)
    (bearerToken : BearerTokenMsg) (secretAccessKey : string) :
  let sms1 := getSubmatches (submatcher center) value in
  let names := strings.Split (at_key sms1 "signed_header_fields") ";" in
  http.Body request = None ->
  url.Get (URL_Query (http.URL request)) "X-Amz-Algorithm" <> "AWS4-HMAC-SHA256" ->
  http.index (http.Header request) "Authorization" = [value] ->
  size sms1 = 6 ->
  time_Parse "20060102T150405Z" (http.Get (http.Header request) "X-Amz-Date")
    = Ok signatureDateTime ->
  unpackBearerToken center (at_key sms1 "access_key_id")
    = Ok (bearerToken, secretAccessKey) ->
  readAndKeepBody request = (request, (Some bytes.zero, None))
  /\ bytes.unread bytes.zero = []
  /\ AuthenticationPassed center request =
       (request,
        match Sign (v4.NewSigner
                      (credentials.NewStaticCredentials
                         (at_key sms1 "access_key_id") secretAccessKey ""))
                   (http.withBody (referenceRequest request names) None)
                   (Some bytes.zero)
                   (at_key sms1 "service") (at_key sms1 "region")
                   signatureDateTime with
        | (_, Some e) =>
            (None, Some (withMessage e "failed to sign temporary HTTP request"))
        | (otherRequest', None) =>
            if decide (at_key sms1 "v4_signature"
                       = at_key (getSubmatches (submatcher center)
                                   (http.Get (http.Header otherRequest')
                                             "Authorization"))
                                "v4_signature")
            then (Some bearerToken, None)
            else (None, None)
        end).
Proof.
  intros sms1 names Hnil Hq Hauth Hsize Htime Hunpack.
  assert (Hkeep : readAndKeepBody request = (request, (Some bytes.zero, None))).
  { unfold readAndKeepBody. by rewrite Hnil. }
  split; [exact Hkeep|]. split; [reflexivity|].
  rewrite (AuthenticationPassed_signs center request value signatureDateTime
             bearerToken secretAccessKey Hq Hauth Hsize Htime Hunpack).
  - rewrite Hkeep, signAndCompare_outcome. unfold drainedBody.
    by rewrite Hnil.
  - by rewrite Hnil.
Qed.
End Claims.

(** ** The claims on concrete requests *)

Lemma Sample_codec_laws : CodecLaws Sample.libs.
Proof.
  split.
  - intros key data rnd c. simpl. unfold Sample.sealFor, Sample.openWith.
    destruct (decide (190 < List.length data)); [discriminate|].
    intros [= <-]. by rewrite (Byte.byte_dec_lb eq_refl).
  - reflexivity.
  - intros t data [= <-]. by exists t.
Qed.

Lemma AuthenticationPassed_mismatch_returns_no_error_witness :
  http.index (http.Header (Sample.forged None)) "Authorization"
    = [http.Get (http.Header (Sample.forged None)) "Authorization"]
  /\ snd (AuthenticationPassed Sample.center (Sample.forged None)) = (None, None).
Proof.
  split; [vm_compute; reflexivity|].
  eapply (@AuthenticationPassed_mismatch_returns_no_error Sample.libs
            Sample.center (Sample.forged None) _
            (http.Get (http.Header (Sample.forged None)) "Authorization")
            "20201030T200700Z" Sample.token Sample.secretAccessKey).
  - vm_compute. discriminate.
  - vm_compute. reflexivity.
  - vm_compute. reflexivity.
  - vm_compute. reflexivity.
  - vm_compute. reflexivity.
  - vm_compute. reflexivity.
  - reflexivity.
  - vm_compute. discriminate.
Defined.

Lemma unpack_pack_round_trip_witness :
  packBearerToken Sample.center Sample.token x11
    = Ok (Sample.accessKeyID, Sample.secretAccessKey)
  /\ exists T',
       unpackBearerToken Sample.center Sample.accessKeyID
         = Ok (T', Sample.secretAccessKey)
       /\ Marshal T' = Marshal Sample.token.
Proof.
  split; [vm_compute; reflexivity|].
  apply (@unpack_pack_round_trip Sample.libs Sample_codec_laws Sample.blank x5a
           Sample.token x11).
  vm_compute. reflexivity.
Defined.


Lemma AuthenticationPassed_rejects_presigned_witness :
  url.Get (URL_Query (http.URL Sample.presigned)) "X-Amz-Algorithm"
    = "AWS4-HMAC-SHA256"
  /\ AuthenticationPassed Sample.center (http.withHeader Sample.presigned ∅)
     = (http.withHeader Sample.presigned ∅,
        (None, errors.New "pre-signed form of request is not supported")).
Proof.
  split; [vm_compute; reflexivity|].
  apply (@AuthenticationPassed_rejects_presigned Sample.libs Sample.center
           Sample.presigned ∅).
  vm_compute. reflexivity.
Defined.

Lemma AuthenticationPassed_rejects_authorization_count_witness :
  http.index (http.Header (Sample.unsigned None)) "Authorization" = []
  /\ List.length (http.index (http.Header Sample.doubled) "Authorization") = 2
  /\ snd (snd (AuthenticationPassed Sample.center (Sample.unsigned None)))
     = errors.New "unsupported request: wrong length of Authorization header field"
  /\ snd (snd (AuthenticationPassed Sample.center Sample.doubled))
     = errors.New "unsupported request: wrong length of Authorization header field".
Proof.
  split; [vm_compute; reflexivity|].
  split; [vm_compute; reflexivity|].
  split.
  - rewrite (@AuthenticationPassed_rejects_authorization_count Sample.libs
               Sample.center (Sample.unsigned None)).
    + reflexivity.
    + vm_compute. discriminate.
    + vm_compute. discriminate.
  - rewrite (@AuthenticationPassed_rejects_authorization_count Sample.libs
               Sample.center Sample.doubled).
    + reflexivity.
    + vm_compute. discriminate.
    + vm_compute. discriminate.
Defined.

Lemma AuthenticationPassed_keeps_request_witness :
  http.Body (Sample.signed (Some Sample.payload)) = Some Sample.payload
  /\ fst (snd (AuthenticationPassed Sample.center
                 (Sample.signed (Some Sample.payload)))) = Some Sample.token
  /\ bodyContent
       (http.Body (fst (AuthenticationPassed Sample.center
                          (Sample.signed (Some Sample.payload)))))
     = (list_byte_of_string "hello", None).
Proof.
  split; [reflexivity|]. split; [vm_compute; reflexivity|].
  apply (@AuthenticationPassed_keeps_request Sample.libs Sample.center
           (Sample.signed (Some Sample.payload))).
  reflexivity.
Defined.

Lemma AuthenticationPassed_accepts_empty_signed_headers_witness :
  at_key (getSubmatches (submatcher Sample.center)
            (http.Get (http.Header (Cases.bare Cases.bareSignature))
                      "Authorization"))
         "signed_header_fields" = ""
  /\ snd (AuthenticationPassed Sample.center (Cases.bare Cases.bareSignature))
     = (Some Sample.token, None).
Proof.
  split; [vm_compute; reflexivity|].
  eapply (@AuthenticationPassed_accepts_empty_signed_headers Sample.libs
            Sample.center (Cases.bare Cases.bareSignature) _
            (http.Get (http.Header (Cases.bare Cases.bareSignature))
                      "Authorization")
            "20201030T200700Z" Sample.token Sample.secretAccessKey).
  - vm_compute. discriminate.
  - vm_compute. reflexivity.
  - vm_compute. reflexivity.
  - vm_compute. reflexivity.
  - vm_compute. reflexivity.
  - vm_compute. reflexivity.
  - reflexivity.
  - reflexivity.
  - vm_compute. reflexivity.
Defined.

Lemma readAndKeepBody_nil_body_witness :
  http.Body (Sample.signed None) = None
  /\ readAndKeepBody (Sample.signed None)
     = (Sample.signed None, (Some bytes.zero, None))
  /\ snd (AuthenticationPassed Sample.center (Sample.signed None))
     = (Some Sample.token, None).
Proof.
  split; [reflexivity|].
  destruct (@readAndKeepBody_nil_body Sample.libs Sample.center
              (Sample.signed None)
              (http.Get (http.Header (Sample.signed None)) "Authorization")
              "20201030T200700Z" Sample.token Sample.secretAccessKey)
    as (Hkeep & _ & Hauth).
  - reflexivity.
  - vm_compute. discriminate.
  - vm_compute. reflexivity.
  - vm_compute. reflexivity.
  - vm_compute. reflexivity.
  - vm_compute. reflexivity.
  - split; [exact Hkeep|]. rewrite Hauth. vm_compute. reflexivity.
Defined.

(** * Further properties *)

(** ** encoding/hex, and the access keys that the codec accepts *)

Lemma string_pair_ind (P : string -> Prop) :
  P "" ->
  (forall c, P (String c "")) ->
  (forall c1 c2 s, P s -> P (String c1 (String c2 s))) ->
  forall s, P s.
Proof.
  intros Hnil Hone Hpair s.
  enough (Hboth : P s /\ forall c, P (String c s)) by apply Hboth.
  induction s as [|a s [IHs IHc]].
  - split; [exact Hnil | exact Hone].
  - split; [apply IHc | intros c; apply Hpair, IHs].
Qed.

Lemma fromHexChar_digit (c : ascii) (a : N) :
  hex.fromHexChar c = Some a ->
  (a < 16)%N /\ hex.digit a = Sample.lower c.
Proof.
  destruct c as [[] [] [] [] [] [] [] []]; vm_compute; intros [= <-]; done.
Qed.

Lemma nibbles_of_byte (a b : N) :
  (a < 16)%N -> (b < 16)%N ->
  let x := default x00 (Byte.of_N (N.lor (N.shiftl a 4) b)) in
  N.shiftr (Byte.to_N x) 4 = a /\ N.land (Byte.to_N x) 15 = b.
Proof.
  intros Ha Hb.
  assert (Has : (a = 0 \/ a = 1 \/ a = 2 \/ a = 3 \/ a = 4 \/ a = 5 \/ a = 6
                \/ a = 7 \/ a = 8 \/ a = 9 \/ a = 10 \/ a = 11 \/ a = 12
                \/ a = 13 \/ a = 14 \/ a = 15)%N) by lia.
  assert (Hbs : (b = 0 \/ b = 1 \/ b = 2 \/ b = 3 \/ b = 4 \/ b = 5 \/ b = 6
                \/ b = 7 \/ b = 8 \/ b = 9 \/ b = 10 \/ b = 11 \/ b = 12
                \/ b = 13 \/ b = 14 \/ b = 15)%N) by lia.
  clear Ha Hb.
  repeat (destruct Has as [-> | Has]); try subst a;
    repeat (destruct Hbs as [-> | Hbs]); try subst b; by vm_compute.
Qed.

Lemma digit_is_lower_hex (b : byte) :
  isLowerHexDigit (hex.digit (N.shiftr (Byte.to_N b) 4)) = true
  /\ isLowerHexDigit (hex.digit (N.land (Byte.to_N b) 15)) = true.
Proof. destruct b; by vm_compute. Qed.

Lemma upper_fromHexChar (c : ascii) :
  hex.fromHexChar (Cases.upper c) = hex.fromHexChar c
  \/ hex.fromHexChar c = None.
Proof. destruct c as [[] [] [] [] [] [] [] []]; vm_compute; by eauto. Qed.

Lemma DecodeString_pair (c1 c2 : ascii) (s : string) (out : ByteSlice) :
  hex.DecodeString (String c1 (String c2 s)) = Ok out ->
  exists a b rest,
    hex.fromHexChar c1 = Some a /\ hex.fromHexChar c2 = Some b
    /\ hex.DecodeString s = Ok rest
    /\ out = default x00 (Byte.of_N (N.lor (N.shiftl a 4) b)) :: rest.
Proof.
  cbn [hex.DecodeString].
  destruct (hex.fromHexChar c1) as [a|]; [|discriminate].
  destruct (hex.fromHexChar c2) as [b|]; [|discriminate].
  destruct (hex.DecodeString s) as [rest|]; [|discriminate].
  intros [= <-]. by exists a, b, rest.
Qed.

(** What an accepted string looks like. *)
Lemma DecodeString_Ok_shape (s : string) :
  forall out,
    hex.DecodeString s = Ok out ->
    String.length s = 2 * List.length out
    /\ Forall (fun c => isHexDigit c = true) (list_ascii_of_string s).
Proof.
  induction s as [|c|c1 c2 s IH] using string_pair_ind; intros out Hout.
  - injection Hout as <-. split; [reflexivity | constructor].
  - simpl in Hout. destruct (hex.fromHexChar c); discriminate.
  - apply DecodeString_pair in Hout as (a & b & rest & Ha & Hb & Hrest & ->).
    destruct (IH rest Hrest) as [Hlen Hall]. split.
    + simpl. rewrite Hlen. lia.
    + simpl. constructor; [unfold isHexDigit; by rewrite Ha|].
      constructor; [unfold isHexDigit; by rewrite Hb|]. exact Hall.
Qed.

(** X1.  [hex.DecodeString] accepts a string exactly when its length is
    even and each of its characters is a hex digit of either case; the
    bytes it returns are half as many as the characters. *)
Theorem hex_DecodeString_accepts (s : string) :
  ((exists out, hex.DecodeString s = Ok out)
   <-> Nat.Even (String.length s)
       /\ Forall (fun c => isHexDigit c = true) (list_ascii_of_string s))
  /\ (forall out,
        hex.DecodeString s = Ok out ->
        String.length s = 2 * List.length out).
Proof.
  split; [split|].
  - intros [out Hout]. destruct (DecodeString_Ok_shape s out Hout) as [Hlen Hall].
    split; [by exists (List.length out) | exact Hall].
  - induction s as [|c|c1 c2 s IH] using string_pair_ind.
    + intros _. by exists [].
    + intros [[n Hn] _]. simpl in Hn. lia.
    + intros [[n Hn] Hall]. simpl in Hn, Hall.
      apply Forall_cons in Hall as [H1 Hall].
      apply Forall_cons in Hall as [H2 Hall].
      destruct IH as [rest Hrest].
      { split; [exists (n - 1); lia | exact Hall]. }
      unfold isHexDigit in H1, H2. cbn [hex.DecodeString].
      destruct (hex.fromHexChar c1) as [a|]; [|discriminate].
      destruct (hex.fromHexChar c2) as [b|]; [|discriminate].
      rewrite Hrest. by eexists.
  - intros out Hout. apply (DecodeString_Ok_shape s out Hout).
Qed.

(** X2.  Decoding and encoding again gives the string in lower case: the
    encoder is the inverse of the decoder up to the case of the digits. *)
Theorem hex_EncodeToString_DecodeString (s : string) (out : ByteSlice) :
  hex.DecodeString s = Ok out ->
  hex.EncodeToString out = Sample.ToLower s.
Proof.
  revert out.
  induction s as [|c|c1 c2 s IH] using string_pair_ind; intros out Hout.
  - by injection Hout as <-.
  - simpl in Hout. destruct (hex.fromHexChar c); discriminate.
  - apply DecodeString_pair in Hout as (a & b & rest & Ha & Hb & Hrest & ->).
    apply fromHexChar_digit in Ha as [Ha Hda].
    apply fromHexChar_digit in Hb as [Hb Hdb].
    destruct (nibbles_of_byte a b Ha Hb) as [Hhi Hlo].
    cbn [hex.EncodeToString Sample.ToLower].
    rewrite Hhi, Hlo, Hda, Hdb, (IH rest Hrest). reflexivity.
Qed.

Lemma hex_EncodeToString_DecodeString_witness :
  hex.DecodeString "0aFf" = Ok [x0a; xff]
  /\ hex.EncodeToString [x0a; xff] = Sample.ToLower "0aFf".
Proof.
  split; [reflexivity|].
  apply (hex_EncodeToString_DecodeString "0aFf" [x0a; xff]). reflexivity.
Defined.

(** The encoder writes two characters per byte, each of them one of
    [0123456789abcdef]. *)
Lemma EncodeToString_lower_hex (src : ByteSlice) :
  String.length (hex.EncodeToString src) = 2 * List.length src
  /\ Forall (fun c => isLowerHexDigit c = true)
            (list_ascii_of_string (hex.EncodeToString src)).
Proof.
  induction src as [|b src [IHlen IHall]].
  - split; [reflexivity | constructor].
  - destruct (digit_is_lower_hex b) as [Hhi Hlo]. split.
    + cbn [hex.EncodeToString]. simpl. rewrite IHlen. simpl. lia.
    + cbn [hex.EncodeToString]. simpl. by repeat constructor.
Qed.

Lemma DecodeString_ToUpper (s : string) :
  forall out,
    hex.DecodeString s = Ok out -> hex.DecodeString (Cases.ToUpper s) = Ok out.
Proof.
  induction s as [|c|c1 c2 s IH] using string_pair_ind; intros out Hout.
  - exact Hout.
  - simpl in Hout. destruct (hex.fromHexChar c); discriminate.
  - apply DecodeString_pair in Hout as (a & b & rest & Ha & Hb & Hrest & ->).
    cbn [Cases.ToUpper hex.DecodeString].
    destruct (upper_fromHexChar c1) as [-> | Hn1]; [|congruence].
    destruct (upper_fromHexChar c2) as [-> | Hn2]; [|congruence].
    by rewrite Ha, Hb, (IH rest Hrest).
Qed.

Section Codec.
Context {L : Libs}.

(** X3.  An access key of odd length, or with a character that is no hex
    digit, is refused by [unpackBearerToken] at its first step, whatever
    keys the centre holds: the error is the decoder's, wrapped as
    "failed to decode HEX string". *)
Theorem unpackBearerToken_rejects_malformed_key (center : Center)
    (accessKeyID : string) :
  ~ (Nat.Even (String.length accessKeyID)
     /\ Forall (fun c => isHexDigit c = true) (list_ascii_of_string accessKeyID)) ->
  exists cause,
    hex.DecodeString accessKeyID = Err cause
    /\ unpackBearerToken center accessKeyID
       = Err (withMessage cause "failed to decode HEX string").
Proof.
  intros Hbad. unfold unpackBearerToken.
  destruct (hex.DecodeString accessKeyID) as [out|cause] eqn:Hdec.
  - destruct Hbad. destruct (DecodeString_Ok_shape _ _ Hdec) as [Hlen Hall].
    split; [by exists (List.length out) | exact Hall].
  - by exists cause.
Qed.

(** X4.  The two keys that [packBearerToken] returns are written in the
    digits [0123456789abcdef], two for each byte: the access key is twice
    as long as the ciphertext and the secret access key twice as long as
    the hash of the serialized token.  The access key therefore holds no
    [/] and fits the credential field of the Authorization grammar. *)
Theorem packBearerToken_keys_are_lower_hex (center : Center)
    (T : BearerTokenMsg) (rnd : Entropy) (accessKeyID secretAccessKey : string) :
  packBearerToken center T rnd = Ok (accessKeyID, secretAccessKey) ->
  (exists data encryptedKeyID,
      Marshal T = Ok data
      /\ encrypt (userAuthKeys_PublicKey center) (compress center data) rnd
         = Ok encryptedKeyID
      /\ String.length accessKeyID = 2 * List.length encryptedKeyID
      /\ String.length secretAccessKey = 2 * List.length (sha256Hash data))
  /\ Forall (fun c => isLowerHexDigit c = true) (list_ascii_of_string accessKeyID)
  /\ Forall (fun c => isLowerHexDigit c = true)
            (list_ascii_of_string secretAccessKey)
  /\ Nat.Even (String.length accessKeyID)
  /\ Nat.Even (String.length secretAccessKey)
  /\ ~ "/"%char ∈ list_ascii_of_string accessKeyID.
Proof.
  unfold packBearerToken.
  destruct (Marshal T) as [data|e]; [|discriminate].
  destruct (encrypt _ _ rnd) as [encryptedKeyID|e] eqn:Hencrypt; [|discriminate].
  intros [= <- <-].
  destruct (EncodeToString_lower_hex encryptedKeyID) as [Hlen1 Hall1].
  destruct (EncodeToString_lower_hex (sha256Hash data)) as [Hlen2 Hall2].
  split; [by exists data, encryptedKeyID|].
  repeat split; try assumption.
  - by exists (List.length encryptedKeyID).
  - by exists (List.length (sha256Hash data)).
  - intros Hin. rewrite Forall_forall in Hall1.
    specialize (Hall1 _ Hin). by vm_compute in Hall1.
Qed.

(** X5.  The secret access key of a token is the same whichever centre
    packs it and whatever the cipher draws from the random source: it
    depends on the token alone. *)
Theorem packBearerToken_secret_of_token_alone (center1 center2 : Center)
    (T : BearerTokenMsg) (rnd1 rnd2 : Entropy)
    (accessKeyID1 accessKeyID2 secret1 secret2 : string) :
  packBearerToken center1 T rnd1 = Ok (accessKeyID1, secret1) ->
  packBearerToken center2 T rnd2 = Ok (accessKeyID2, secret2) ->
  secret1 = secret2.
Proof.
  unfold packBearerToken.
  destruct (Marshal T) as [data|e]; [|discriminate].
  destruct (encrypt _ _ rnd1) as [c1|e]; [|discriminate].
  destruct (encrypt _ _ rnd2) as [c2|e]; [|discriminate].
  by intros [= _ <-] [= _ <-].
Qed.

(** X6.  Access keys are read without regard to the case of their hex
    digits: an access key that decodes, written in upper case, unpacks to
    the same outcome. *)
Theorem unpackBearerToken_ignores_case (center : Center) (accessKeyID : string)
    (encryptedKeyID : ByteSlice) :
  hex.DecodeString accessKeyID = Ok encryptedKeyID ->
  unpackBearerToken center (Cases.ToUpper accessKeyID)
    = unpackBearerToken center accessKeyID.
Proof.
  intros Hdec. unfold unpackBearerToken.
  by rewrite (DecodeString_ToUpper _ _ Hdec), Hdec.
Qed.
End Codec.

Lemma unpackBearerToken_rejects_malformed_key_witness :
  exists cause,
    hex.DecodeString "7b2f" = Ok [x7b; x2f]
    /\ hex.DecodeString "7b2" = Err cause
    /\ unpackBearerToken Sample.center "7b2"
       = Err (withMessage cause "failed to decode HEX string").
Proof.
  destruct (@unpackBearerToken_rejects_malformed_key Sample.libs Sample.center
              "7b2") as (cause & Hdec & Hunpack).
  - intros [[n Hn] _]. simpl in Hn. lia.
  - exists cause. split; [reflexivity | by split].
Defined.

Lemma packBearerToken_keys_are_lower_hex_witness :
  packBearerToken Sample.center Sample.token x11
    = Ok (Sample.accessKeyID, Sample.secretAccessKey)
  /\ String.length Sample.accessKeyID = 2 * (2 + List.length Sample.token)
  /\ ~ "/"%char ∈ list_ascii_of_string Sample.accessKeyID.
Proof.
  split; [vm_compute; reflexivity|].
  destruct (@packBearerToken_keys_are_lower_hex Sample.libs Sample.center
              Sample.token x11 Sample.accessKeyID Sample.secretAccessKey)
    as ((data & encryptedKeyID & Hdata & Hcipher & Hlen & _) & _ & _ & _ & _ & Hslash).
  - vm_compute. reflexivity.
  - split; [|exact Hslash].
    rewrite Hlen. change (Ok Sample.token = Ok data) in Hdata.
    injection Hdata as <-. vm_compute in Hcipher.
    injection Hcipher as <-. reflexivity.
Defined.

Lemma packBearerToken_secret_of_token_alone_witness :
  (exists accessKeyID2,
      packBearerToken (SetUserAuthKeys Sample.blank x07) Sample.token x22
        = Ok (accessKeyID2, Sample.secretAccessKey)
      /\ accessKeyID2 <> Sample.accessKeyID).
Proof.
  destruct (packBearerToken (SetUserAuthKeys Sample.blank x07) Sample.token x22)
    as [[accessKeyID2 secret2]|e] eqn:Hpack; [|vm_compute in Hpack; discriminate].
  exists accessKeyID2. split.
  - f_equal. f_equal.
    apply (@packBearerToken_secret_of_token_alone Sample.libs
             (SetUserAuthKeys Sample.blank x07) Sample.center Sample.token
             x22 x11 accessKeyID2 Sample.accessKeyID); [exact Hpack|].
    vm_compute. reflexivity.
  - vm_compute in Hpack. injection Hpack as <- _. vm_compute. discriminate.
Defined.

Lemma unpackBearerToken_ignores_case_witness :
  Cases.ToUpper Sample.accessKeyID <> Sample.accessKeyID
  /\ unpackBearerToken Sample.center (Cases.ToUpper Sample.accessKeyID)
     = Ok (Sample.token, Sample.secretAccessKey).
Proof.
  split; [vm_compute; discriminate|].
  destruct (hex.DecodeString Sample.accessKeyID) as [enc|e] eqn:Hdec;
    [|vm_compute in Hdec; discriminate].
  rewrite (@unpackBearerToken_ignores_case Sample.libs Sample.center
             Sample.accessKeyID enc Hdec).
  vm_compute. reflexivity.
Defined.

(** ** The outcomes of [AuthenticationPassed] *)

Section Outcomes.
Context {L : Libs}.

(** The results of [AuthenticationPassed], step by step.  The test on the
    list of signed header names has no case of its own: the list is never
    empty. *)
Lemma AuthenticationPassed_outcome (center : Center) (request : http.Request) :
  snd (AuthenticationPassed center request) =
  if decide (url.Get (URL_Query (http.URL request)) "X-Amz-Algorithm"
             = "AWS4-HMAC-SHA256")
  then (None, errors.New "pre-signed form of request is not supported")
  else
    match http.index (http.Header request) "Authorization" with
    | [value] =>
        let sms1 := getSubmatches (submatcher center) value in
        let names := strings.Split (at_key sms1 "signed_header_fields") ";" in
        if decide (size sms1 = 6) then
          match time_Parse "20060102T150405Z"
                           (http.Get (http.Header request) "X-Amz-Date") with
          | Err e =>
              (None, Some (withMessage e "failed to parse x-amz-date header field"))
          | Ok signatureDateTime =>
              match unpackBearerToken center (at_key sms1 "access_key_id") with
              | Err e =>
                  (None, Some (withMessage e "failed to unpack bearer token"))
              | Ok (bearerToken, secretAccessKey) =>
                  match snd (bodyContent (http.Body request)) with
                  | Some e =>
                      (None, Some (withMessage e "failed to read out request body"))
                  | None =>
                      signAndCompare center sms1 bearerToken
                        (v4.NewSigner
                           (credentials.NewStaticCredentials
                              (at_key sms1 "access_key_id") secretAccessKey ""))
                        (http.withBody (referenceRequest request names)
                                       (drainedBody request))
                        (fst (snd (readAndKeepBody request)))
                        signatureDateTime
                  end
              end
          end
        else (None, errors.New "bad Authorization header field")
    | _ =>
        (None,
         errors.New "unsupported request: wrong length of Authorization header field")
    end.
Proof.
  destruct (decide (url.Get _ _ = _)) as [Hq|Hq].
  { unfold AuthenticationPassed. by destruct (decide _). }
  destruct (http.index (http.Header request) "Authorization")
    as [|value [|value' rest]] eqn:Hauth.
  - unfold AuthenticationPassed. destruct (decide (url.Get _ _ = _)); [done|].
    rewrite Hauth. by destruct (decide _) as [_|Hn]; [|destruct Hn].
  - cbv zeta. destruct (decide (size _ = 6)) as [Hsize|Hsize].
    + rewrite (AuthenticationPassed_wellformed center request value Hq Hauth Hsize).
      unfold verifySigned.
      destruct (decide (List.length _ = 0)) as [Hlen|_].
      { apply length_zero_iff_nil in Hlen.
        by apply Split_not_nil in Hlen. }
      destruct (time_Parse _ _) as [signatureDateTime|e]; [|reflexivity].
      destruct (unpackBearerToken _ _) as [[bearerToken secretAccessKey]|e];
        [|reflexivity].
      unfold readAndKeepBody, bodyContent.
      destruct (http.Body request) as [body|]; [|reflexivity].
      simpl. by destruct (failure body).
    + unfold AuthenticationPassed. destruct (decide (url.Get _ _ = _)); [done|].
      rewrite Hauth. simpl. destruct (decide (1 <> 1)); [done|].
      by destruct (decide (size _ <> 6)).
  - unfold AuthenticationPassed. destruct (decide (url.Get _ _ = _)); [done|].
    rewrite Hauth. by destruct (decide _) as [_|Hn]; [|destruct Hn].
Qed.

(** X7.  [AuthenticationPassed] returns a token exactly when the request
    passes every step up to the comparison and the recomputed signature
    equals the one presented; the token is the one unpacked from the
    access key, and no error accompanies it. *)
Theorem AuthenticationPassed_token_iff (center : Center)
    (request : http.Request) (bearerToken : BearerTokenMsg) (e : error) :
  snd (AuthenticationPassed center request) = (Some bearerToken, e)
  <-> e = None
      /\ exists value signatureDateTime secretAccessKey otherRequest',
           reachesComparison center request value signatureDateTime
                             bearerToken secretAccessKey otherRequest'
           /\ presentedSignature center value
              = recomputedSignature center otherRequest'.
Proof.
  rewrite AuthenticationPassed_outcome.
  unfold reachesComparison, presentedSignature, recomputedSignature. split.
  - destruct (decide (url.Get _ _ = _)) as [|Hq]; [discriminate|].
    destruct (http.index _ _) as [|value [|? ?]]; try discriminate.
    cbv zeta. destruct (decide (size _ = 6)) as [Hsize|]; [|discriminate].
    destruct (time_Parse _ _) as [signatureDateTime|] eqn:Htime; [|discriminate].
    destruct (unpackBearerToken _ _) as [[tok secretAccessKey]|] eqn:Hunpack;
      [|discriminate].
    destruct (snd (bodyContent _)) eqn:Hbody; [discriminate|].
    rewrite signAndCompare_outcome.
    destruct (Sign _ _ _ _ _ _) as [otherRequest' [?|]] eqn:Hsign; [discriminate|].
    destruct (decide _) as [Hsig|]; [|discriminate].
    intros [= -> <-]. split; [reflexivity|].
    by exists value, signatureDateTime, secretAccessKey, otherRequest'.
  - intros (-> & value & signatureDateTime & secretAccessKey & otherRequest'
            & (Hq & Hauth & Hsize & Htime & Hunpack & Hbody & Hsign) & Hsig).
    destruct (decide (url.Get _ _ = _)); [done|].
    rewrite Hauth. cbv zeta. destruct (decide (size _ = 6)); [|done].
    rewrite Htime, Hunpack, Hbody, signAndCompare_outcome, Hsign.
    by destruct (decide _).
Qed.

(** X8.  [AuthenticationPassed] returns neither a token nor an error
    exactly when the request passes every step up to the comparison and
    the recomputed signature differs from the one presented. *)
Theorem AuthenticationPassed_silent_iff (center : Center)
    (request : http.Request) :
  snd (AuthenticationPassed center request) = (None, None)
  <-> exists value signatureDateTime bearerToken secretAccessKey otherRequest',
        reachesComparison center request value signatureDateTime
                          bearerToken secretAccessKey otherRequest'
        /\ presentedSignature center value
           <> recomputedSignature center otherRequest'.
Proof.
  rewrite AuthenticationPassed_outcome.
  unfold reachesComparison, presentedSignature, recomputedSignature. split.
  - destruct (decide (url.Get _ _ = _)) as [|Hq]; [discriminate|].
    destruct (http.index _ _) as [|value [|? ?]]; try discriminate.
    cbv zeta. destruct (decide (size _ = 6)) as [Hsize|]; [|discriminate].
    destruct (time_Parse _ _) as [signatureDateTime|] eqn:Htime; [|discriminate].
    destruct (unpackBearerToken _ _) as [[tok secretAccessKey]|] eqn:Hunpack;
      [|discriminate].
    destruct (snd (bodyContent _)) eqn:Hbody; [discriminate|].
    rewrite signAndCompare_outcome.
    destruct (Sign _ _ _ _ _ _) as [otherRequest' [?|]] eqn:Hsign; [discriminate|].
    destruct (decide _) as [|Hsig]; [discriminate|].
    intros _.
    by exists value, signatureDateTime, tok, secretAccessKey, otherRequest'.
  - intros (value & signatureDateTime & bearerToken & secretAccessKey
            & otherRequest'
            & (Hq & Hauth & Hsize & Htime & Hunpack & Hbody & Hsign) & Hsig).
    destruct (decide (url.Get _ _ = _)); [done|].
    rewrite Hauth. cbv zeta. destruct (decide (size _ = 6)); [|done].
    rewrite Htime, Hunpack, Hbody, signAndCompare_outcome, Hsign.
    by destruct (decide _).
Qed.

(** X9.  Every error that [AuthenticationPassed] returns comes without a
    token and is of one of seven kinds: the three rejections of the
    request's form, or the wrapped error of the date parser, of the
    credential codec, of the body reader or of the signer. *)
Theorem AuthenticationPassed_errors (center : Center) (request : http.Request)
    (e : err) :
  snd (snd (AuthenticationPassed center request)) = Some e ->
  fst (snd (AuthenticationPassed center request)) = None
  /\ (e = fundamental "pre-signed form of request is not supported"
      \/ e = fundamental "unsupported request: wrong length of Authorization header field"
      \/ e = fundamental "bad Authorization header field"
      \/ (exists cause, e = withMessage cause "failed to parse x-amz-date header field")
      \/ (exists cause, e = withMessage cause "failed to unpack bearer token")
      \/ (exists cause, e = withMessage cause "failed to read out request body")
      \/ (exists cause, e = withMessage cause "failed to sign temporary HTTP request")).
Proof.
  rewrite AuthenticationPassed_outcome.
  destruct (decide (url.Get _ _ = _)); [intros [= <-]; by eauto 10|].
  destruct (http.index _ _) as [|value [|? ?]];
    try (intros [= <-]; by eauto 10).
  cbv zeta. destruct (decide (size _ = 6)); [|intros [= <-]; by eauto 10].
  destruct (time_Parse _ _); [|intros [= <-]; by eauto 10].
  destruct (unpackBearerToken _ _) as [[tok secretAccessKey]|];
    [|intros [= <-]; by eauto 10].
  destruct (snd (bodyContent _)); [intros [= <-]; by eauto 10|].
  rewrite signAndCompare_outcome.
  destruct (Sign _ _ _ _ _ _) as [otherRequest' [?|]];
    [intros [= <-]; by eauto 10|].
  by destruct (decide _).
Qed.

(** X10.  Two error messages of the source never leave
    [AuthenticationPassed]: "wrong format of signed headers part", whose
    guard tests for a list that splitting cannot give, and "failed to pass
    authentication procedure", which is wrapped around a nil error. *)
Theorem AuthenticationPassed_silent_messages (center : Center)
    (request : http.Request) :
  snd (snd (AuthenticationPassed center request))
    <> errors.New "wrong format of signed headers part"
  /\ forall cause,
       snd (snd (AuthenticationPassed center request))
         <> Some (withMessage cause "failed to pass authentication procedure").
Proof.
  rewrite AuthenticationPassed_outcome. unfold errors.New.
  destruct (decide (url.Get _ _ = _)); [split; [|intros ?]; discriminate|].
  destruct (http.index _ _) as [|value [|? ?]];
    try (split; [|intros ?]; discriminate).
  cbv zeta. destruct (decide (size _ = 6)); [|split; [|intros ?]; discriminate].
  destruct (time_Parse _ _); [|split; [|intros ?]; discriminate].
  destruct (unpackBearerToken _ _) as [[tok secretAccessKey]|];
    [|split; [|intros ?]; discriminate].
  destruct (snd (bodyContent _)); [split; [|intros ?]; discriminate|].
  rewrite signAndCompare_outcome.
  destruct (Sign _ _ _ _ _ _) as [otherRequest' [?|]];
    [split; [|intros ?]; discriminate|].
  destruct (decide _); split; try intros ?; discriminate.
Qed.
End Outcomes.

Lemma AuthenticationPassed_errors_witness :
  snd (snd (AuthenticationPassed Sample.center Sample.doubled))
    = Some (fundamental "unsupported request: wrong length of Authorization header field")
  /\ fst (snd (AuthenticationPassed Sample.center Sample.doubled)) = None.
Proof.
  split; [vm_compute; reflexivity|].
  apply (@AuthenticationPassed_errors Sample.libs Sample.center Sample.doubled
           (fundamental "unsupported request: wrong length of Authorization header field")).
  vm_compute. reflexivity.
Defined.

(** ** Rejections, and what they leave of the request *)

Section Rejections.
Context {L : Libs}.

(** X11.  A request that is not pre-signed and whose one Authorization
    value does not give the six captures is rejected as "bad Authorization
    header field". *)
Theorem AuthenticationPassed_rejects_bad_header (center : Center)
    (request : http.Request) (value : string) :
  url.Get (URL_Query (http.URL request)) "X-Amz-Algorithm" <> "AWS4-HMAC-SHA256" ->
  http.index (http.Header request) "Authorization" = [value] ->
  size (getSubmatches (submatcher center) value) <> 6 ->
  AuthenticationPassed center request =
    (request, (None, errors.New "bad Authorization header field")).
Proof.
  intros Hq Hauth Hsize. unfold AuthenticationPassed.
  destruct (decide (url.Get _ _ = _)); [contradiction|].
  rewrite Hauth. simpl. destruct (decide (1 <> 1)); [contradiction|].
  destruct (decide (size _ <> 6)); [reflexivity | contradiction].
Qed.

(** X12.  A date that does not parse rejects the request before its access
    key is looked at: the outcome is the parser's error, wrapped, whatever
    the access key is, and the request is left as it was. *)
Theorem AuthenticationPassed_rejects_bad_date (center : Center)
    (request : http.Request) (value : string) (cause : err) :
  url.Get (URL_Query (http.URL request)) "X-Amz-Algorithm" <> "AWS4-HMAC-SHA256" ->
  http.index (http.Header request) "Authorization" = [value] ->
  size (getSubmatches (submatcher center) value) = 6 ->
  time_Parse "20060102T150405Z" (http.Get (http.Header request) "X-Amz-Date")
    = Err cause ->
  AuthenticationPassed center request =
    (request,
     (None, Some (withMessage cause "failed to parse x-amz-date header field"))).
Proof.
  intros Hq Hauth Hsize Htime.
  rewrite (AuthenticationPassed_wellformed center request value Hq Hauth Hsize).
  unfold verifySigned.
  destruct (decide (List.length _ = 0)) as [Hlen|_].
  { apply length_zero_iff_nil in Hlen. by apply Split_not_nil in Hlen. }
  by rewrite Htime.
Qed.

(** X13.  An access key that does not unpack rejects the request with the
    codec's error, wrapped once more; the body of the request has not been
    read. *)
Theorem AuthenticationPassed_rejects_bad_key (center : Center)
    (request : http.Request) (value : string) (signatureDateTime : time_Time)
    (cause : err) :
  let sms1 := getSubmatches (submatcher center) value in
  url.Get (URL_Query (http.URL request)) "X-Amz-Algorithm" <> "AWS4-HMAC-SHA256" ->
  http.index (http.Header request) "Authorization" = [value] ->
  size sms1 = 6 ->
  time_Parse "20060102T150405Z" (http.Get (http.Header request) "X-Amz-Date")
    = Ok signatureDateTime ->
  unpackBearerToken center (at_key sms1 "access_key_id") = Err cause ->
  AuthenticationPassed center request =
    (request, (None, Some (withMessage cause "failed to unpack bearer token"))).
Proof.
  intros sms1 Hq Hauth Hsize Htime Hunpack.
  rewrite (AuthenticationPassed_wellformed center request value Hq Hauth Hsize).
  unfold verifySigned.
  destruct (decide (List.length _ = 0)) as [Hlen|_].
  { apply length_zero_iff_nil in Hlen. by apply Split_not_nil in Hlen. }
  fold sms1. by rewrite Htime, Hunpack.
Qed.

(** X14.  When reading the body fails, the request is rejected with the
    reader's error, wrapped; the signer is not called, and the request is
    left with the body it had, now read to the point of failure: the bytes
    that were read are lost to the next reader. *)
Theorem AuthenticationPassed_rejects_unreadable_body (center : Center)
    (request : http.Request) (value : string) (signatureDateTime : time_Time)
    (bearerToken : BearerTokenMsg) (secretAccessKey : string)
    (body : ReadCloser) (cause : err) :
  let sms1 := getSubmatches (submatcher center) value in
  url.Get (URL_Query (http.URL request)) "X-Amz-Algorithm" <> "AWS4-HMAC-SHA256" ->
  http.index (http.Header request) "Authorization" = [value] ->
  size sms1 = 6 ->
  time_Parse "20060102T150405Z" (http.Get (http.Header request) "X-Amz-Date")
    = Ok signatureDateTime ->
  unpackBearerToken center (at_key sms1 "access_key_id")
    = Ok (bearerToken, secretAccessKey) ->
  http.Body request = Some body ->
  failure body = Some cause ->
  AuthenticationPassed center request =
    (http.withBody request (Some {| pending := []; failure := Some cause |}),
     (None, Some (withMessage cause "failed to read out request body"))).
Proof.
  intros sms1 Hq Hauth Hsize Htime Hunpack Hbody Hfail.
  rewrite (AuthenticationPassed_wellformed center request value Hq Hauth Hsize).
  unfold verifySigned.
  destruct (decide (List.length _ = 0)) as [Hlen|_].
  { apply length_zero_iff_nil in Hlen. by apply Split_not_nil in Hlen. }
  fold sms1. rewrite Htime, Hunpack. unfold readAndKeepBody.
  rewrite Hbody. simpl. by rewrite Hfail.
Qed.

(** X15.  An error of the signer rejects the request with that error,
    wrapped; by then the body has been read and put back. *)
Theorem AuthenticationPassed_rejects_signer_error (center : Center)
    (request otherRequest' : http.Request) (value : string)
    (signatureDateTime : time_Time) (bearerToken : BearerTokenMsg)
    (secretAccessKey : string) (cause : err) :
  let sms1 := getSubmatches (submatcher center) value in
  let names := strings.Split (at_key sms1 "signed_header_fields") ";" in
  url.Get (URL_Query (http.URL request)) "X-Amz-Algorithm" <> "AWS4-HMAC-SHA256" ->
  http.index (http.Header request) "Authorization" = [value] ->
  size sms1 = 6 ->
  time_Parse "20060102T150405Z" (http.Get (http.Header request) "X-Amz-Date")
    = Ok signatureDateTime ->
  unpackBearerToken center (at_key sms1 "access_key_id")
    = Ok (bearerToken, secretAccessKey) ->
  snd (bodyContent (http.Body request)) = None ->
  Sign (v4.NewSigner
          (credentials.NewStaticCredentials (at_key sms1 "access_key_id")
             secretAccessKey ""))
       (http.withBody (referenceRequest request names) (drainedBody request))
       (fst (snd (readAndKeepBody request)))
       (at_key sms1 "service") (at_key sms1 "region") signatureDateTime
    = (otherRequest', Some cause) ->
  AuthenticationPassed center request =
    (fst (readAndKeepBody request),
     (None, Some (withMessage cause "failed to sign temporary HTTP request"))).
Proof.
  intros sms1 names Hq Hauth Hsize Htime Hunpack Hbody Hsign.
  rewrite (AuthenticationPassed_signs center request value signatureDateTime
             bearerToken secretAccessKey Hq Hauth Hsize Htime Hunpack Hbody).
  fold sms1 names. by rewrite signAndCompare_outcome, Hsign.
Qed.

(** With a body that reads without error, [readAndKeepBody] leaves the
    request equal to the one it was given. *)
Lemma readAndKeepBody_same (request : http.Request) :
  snd (bodyContent (http.Body request)) = None ->
  fst (readAndKeepBody request) = request.
Proof.
  unfold readAndKeepBody, bodyContent.
  destruct request as [method u header [[payload fail]|] host]; simpl.
  - intros ->. reflexivity.
  - reflexivity.
Qed.

(** X17.  The reader that [readAndKeepBody] returns for the signer holds
    the bytes of the body, all of them still to be read, and the body it
    puts back on the request holds the same bytes: what is signed is what
    the next reader receives. *)
Theorem readAndKeepBody_payload (request : http.Request) (body : ReadCloser) :
  http.Body request = Some body ->
  failure body = None ->
  exists reader,
    snd (readAndKeepBody request) = (Some reader, None)
    /\ bytes.unread reader = pending body
    /\ bodyContent (http.Body (fst (readAndKeepBody request)))
       = (bytes.unread reader, None).
Proof.
  intros Hbody Hfail. unfold readAndKeepBody. rewrite Hbody. simpl.
  rewrite Hfail. by exists (bytes.NewReader (pending body)).
Qed.

(** X18.  The handler that the middleware wraps is served with a token
    only for a request that passed every step and whose signature was
    recomputed to the one presented; whatever the outcome, an unbroken
    body reaches it unchanged. *)
Theorem attachNewUserAuth_serves (center : Center) (r : http.Request) :
  (forall bearerToken,
      snd (attachNewUserAuth center r) = Some bearerToken ->
      exists value signatureDateTime secretAccessKey otherRequest',
        reachesComparison center r value signatureDateTime bearerToken
                          secretAccessKey otherRequest'
        /\ presentedSignature center value
           = recomputedSignature center otherRequest')
  /\ (snd (bodyContent (http.Body r)) = None ->
      fst (attachNewUserAuth center r) = r).
Proof.
  split.
  - intros bearerToken. unfold attachNewUserAuth.
    pose proof (AuthenticationPassed_outcome center r) as Hout.
    destruct (AuthenticationPassed center r) as [r' [tok e]]. simpl in *.
    intros ->. revert Hout.
    unfold reachesComparison, presentedSignature, recomputedSignature.
    destruct (decide (url.Get _ _ = _)) as [|Hq]; [discriminate|].
    destruct (http.index _ _) as [|value [|? ?]]; try discriminate.
    cbv zeta. destruct (decide (size _ = 6)) as [Hsize|]; [|discriminate].
    destruct (time_Parse _ _) as [signatureDateTime|] eqn:Htime; [|discriminate].
    destruct (unpackBearerToken _ _) as [[tok secretAccessKey]|] eqn:Hunpack;
      [|discriminate].
    destruct (snd (bodyContent _)) eqn:Hbody; [discriminate|].
    rewrite signAndCompare_outcome.
    destruct (Sign _ _ _ _ _ _) as [otherRequest' [?|]] eqn:Hsign; [discriminate|].
    destruct (decide _) as [Hsig|]; [|discriminate].
    intros [= -> ->].
    by exists value, signatureDateTime, secretAccessKey, otherRequest'.
  - intros Hbody. rewrite attachNewUserAuth_request.
    destruct (AuthenticationPassed_request center r) as [-> | ->];
      [reflexivity | by apply readAndKeepBody_same].
Qed.
End Rejections.

Lemma AuthenticationPassed_rejects_bad_header_witness :
  AuthenticationPassed Sample.center
    (Cases.sent "Basic dXNlcjpwYXNz" "20201030T200700Z" None)
  = (Cases.sent "Basic dXNlcjpwYXNz" "20201030T200700Z" None,
     (None, errors.New "bad Authorization header field")).
Proof.
  apply (@AuthenticationPassed_rejects_bad_header Sample.libs Sample.center
           (Cases.sent "Basic dXNlcjpwYXNz" "20201030T200700Z" None)
           "Basic dXNlcjpwYXNz").
  - vm_compute. discriminate.
  - vm_compute. reflexivity.
  - vm_compute. discriminate.
Defined.

Lemma AuthenticationPassed_rejects_bad_date_witness :
  exists cause,
    AuthenticationPassed Sample.center
      (Cases.sent (Cases.credential "not-a-key" "us-east-1") "yesterday" None)
    = (Cases.sent (Cases.credential "not-a-key" "us-east-1") "yesterday" None,
       (None, Some (withMessage cause "failed to parse x-amz-date header field"))).
Proof.
  exists (fundamental "parsing time: cannot parse").
  apply (@AuthenticationPassed_rejects_bad_date Sample.libs Sample.center
           (Cases.sent (Cases.credential "not-a-key" "us-east-1") "yesterday" None)
           (Cases.credential "not-a-key" "us-east-1")).
  - vm_compute. discriminate.
  - vm_compute. reflexivity.
  - vm_compute. reflexivity.
  - vm_compute. reflexivity.
Defined.

Lemma AuthenticationPassed_rejects_bad_key_witness :
  exists cause,
    snd (snd (AuthenticationPassed Sample.center
                (Cases.sent (Cases.credential "not-a-key" "us-east-1")
                            "20201030T200700Z" (Some Sample.payload))))
    = Some (withMessage (withMessage cause "failed to decode HEX string")
                        "failed to unpack bearer token")
    /\ http.Body (fst (AuthenticationPassed Sample.center
                         (Cases.sent (Cases.credential "not-a-key" "us-east-1")
                                     "20201030T200700Z" (Some Sample.payload))))
       = Some Sample.payload.
Proof.
  exists (hex.InvalidByteError "n"%char).
  rewrite (@AuthenticationPassed_rejects_bad_key Sample.libs Sample.center
             (Cases.sent (Cases.credential "not-a-key" "us-east-1")
                         "20201030T200700Z" (Some Sample.payload))
             (Cases.credential "not-a-key" "us-east-1") "20201030T200700Z"
             (withMessage (hex.InvalidByteError "n"%char)
                          "failed to decode HEX string")).
  - split; reflexivity.
  - vm_compute. discriminate.
  - vm_compute. reflexivity.
  - vm_compute. reflexivity.
  - vm_compute. reflexivity.
  - vm_compute. reflexivity.
Defined.

Lemma AuthenticationPassed_rejects_unreadable_body_witness :
  AuthenticationPassed Sample.center
    (Cases.sent (Cases.credential Sample.accessKeyID "us-east-1")
                "20201030T200700Z" (Some Cases.broken))
  = (Cases.sent (Cases.credential Sample.accessKeyID "us-east-1")
                "20201030T200700Z"
                (Some {| pending := [];
                         failure := Some (fundamental "unexpected EOF") |}),
     (None,
      Some (withMessage (fundamental "unexpected EOF")
                        "failed to read out request body"))).
Proof.
  apply (@AuthenticationPassed_rejects_unreadable_body Sample.libs Sample.center
           (Cases.sent (Cases.credential Sample.accessKeyID "us-east-1")
                       "20201030T200700Z" (Some Cases.broken))
           (Cases.credential Sample.accessKeyID "us-east-1")
           "20201030T200700Z" Sample.token Sample.secretAccessKey Cases.broken).
  - vm_compute. discriminate.
  - vm_compute. reflexivity.
  - vm_compute. reflexivity.
  - vm_compute. reflexivity.
  - vm_compute. reflexivity.
  - reflexivity.
  - reflexivity.
Defined.

Lemma AuthenticationPassed_rejects_signer_error_witness :
  snd (@AuthenticationPassed Cases.libs Cases.center
         (Cases.sent (Cases.credential Sample.accessKeyID "")
                     "20201030T200700Z" (Some Sample.payload)))
  = (None,
     Some (withMessage
             (fundamental "MissingRegion: could not find region configuration")
             "failed to sign temporary HTTP request")).
Proof.
  erewrite (@AuthenticationPassed_rejects_signer_error Cases.libs Cases.center
              (Cases.sent (Cases.credential Sample.accessKeyID "")
                          "20201030T200700Z" (Some Sample.payload))
              _ (Cases.credential Sample.accessKeyID "")
              "20201030T200700Z" Sample.token Sample.secretAccessKey
              (fundamental "MissingRegion: could not find region configuration")).
  - reflexivity.
  - vm_compute. discriminate.
  - vm_compute. reflexivity.
  - vm_compute. reflexivity.
  - vm_compute. reflexivity.
  - vm_compute. reflexivity.
  - reflexivity.
  - reflexivity.
Defined.

Lemma readAndKeepBody_payload_witness :
  exists reader,
    snd (readAndKeepBody (Sample.signed (Some Sample.payload)))
      = (Some reader, None)
    /\ bytes.unread reader = list_byte_of_string "hello"
    /\ bodyContent
         (http.Body (fst (readAndKeepBody (Sample.signed (Some Sample.payload)))))
       = (bytes.unread reader, None).
Proof.
  apply (readAndKeepBody_payload (Sample.signed (Some Sample.payload))
           Sample.payload); reflexivity.
Defined.

(** ** The list of signed header names *)

Lemma append_cons (a : ascii) (s t : string) :
  String a s ++ t = String a (s ++ t).
Proof. reflexivity. Qed.

Lemma append_nil (t : string) : "" ++ t = t.
Proof. reflexivity. Qed.

Lemma append_empty (s : string) : s ++ "" = s.
Proof.
  induction s as [|a s IH]; [reflexivity | by rewrite append_cons, IH].
Qed.

Lemma append_snoc (cur s : string) (c : ascii) :
  (cur ++ String c "") ++ s = cur ++ String c s.
Proof.
  induction cur as [|a cur IH].
  - reflexivity.
  - by rewrite !append_cons, IH.
Qed.

Lemma HasPrefix_cut (s prefix : string) :
  strings.HasPrefix s prefix = true ->
  s = prefix ++ sliceFrom (String.length prefix) s.
Proof.
  revert s. induction prefix as [|p prefix IH]; intros s Hpre.
  - reflexivity.
  - destruct s as [|c s]; [discriminate|]. simpl in Hpre.
    destruct (Ascii.eqb_spec p c) as [->|]; [|discriminate].
    rewrite append_cons. cbn [String.length sliceFrom].
    by rewrite <- (IH s Hpre).
Qed.

Lemma Join_cons (a sep : string) (rest : list string) :
  rest <> [] -> strings_Join (a :: rest) sep = a ++ sep ++ strings_Join rest sep.
Proof. by destruct rest. Qed.

Lemma Join_genSplit (sep s : string) :
  sep <> "" ->
  forall (skip : nat) (cur : string),
    strings_Join (strings.genSplit sep skip cur s) sep = cur ++ sliceFrom skip s.
Proof.
  intros Hsep. induction s as [|c s IH]; intros skip cur.
  - destruct skip; cbn [strings.genSplit strings_Join sliceFrom];
      by rewrite append_empty.
  - cbn [strings.genSplit]. destruct skip as [|k].
    + destruct (strings.HasPrefix (String c s) sep) eqn:Hpre.
      * rewrite Join_cons by apply genSplit_not_nil. rewrite IH, append_nil.
        apply HasPrefix_cut in Hpre.
        destruct sep as [|p sep]; [done|].
        cbn [String.length sliceFrom] in Hpre |- *.
        replace (S (String.length sep) - 1) with (String.length sep) by lia.
        by rewrite <- Hpre.
      * rewrite IH. cbn [sliceFrom]. apply append_snoc.
    + rewrite IH. reflexivity.
Qed.

Lemma countChar_snoc (c a : ascii) (cur : string) :
  countChar c (cur ++ String a "")
  = countChar c cur + (if Ascii.eqb a c then 1 else 0).
Proof.
  induction cur as [|b cur IH].
  - rewrite append_nil. simpl. lia.
  - rewrite append_cons. cbn [countChar]. rewrite IH. lia.
Qed.

Lemma HasPrefix_empty (s : string) : strings.HasPrefix s "" = true.
Proof. by destruct s. Qed.

Lemma genSplit_char (c : ascii) (s : string) :
  forall cur : string,
    List.length (strings.genSplit (String c "") 0 cur s) = S (countChar c s)
    /\ (countChar c cur = 0 ->
        Forall (fun piece => countChar c piece = 0)
               (strings.genSplit (String c "") 0 cur s)).
Proof.
  induction s as [|a s IH]; intros cur.
  - split; [reflexivity | by repeat constructor].
  - cbn [strings.genSplit strings.HasPrefix String.length countChar].
    change (1 - 1) with 0. rewrite (Ascii.eqb_sym c a), HasPrefix_empty.
    destruct (Ascii.eqb a c) eqn:Hac.
    + destruct (IH "") as [Hlen Hall]. split.
      * cbn [List.length]. by rewrite Hlen.
      * intros Hcur. constructor; [exact Hcur | by apply Hall].
    + destruct (IH (cur ++ String a "")) as [Hlen Hall]. split; [exact Hlen|].
      intros Hcur. apply Hall. rewrite countChar_snoc, Hcur, Hac. reflexivity.
Qed.

(** X19.  Joining the pieces of a split with the separator gives back the
    string that was split. *)
Theorem strings_Join_Split (s sep : string) :
  sep <> "" -> strings_Join (strings.Split s sep) sep = s.
Proof.
  intros Hsep. unfold strings.Split.
  destruct (decide (sep = "")); [contradiction|].
  by rewrite Join_genSplit.
Qed.

Lemma strings_Join_Split_witness :
  strings.Split "host;x-amz-date;" ";" = ["host"; "x-amz-date"; ""]
  /\ strings_Join (strings.Split "host;x-amz-date;" ";") ";" = "host;x-amz-date;".
Proof.
  split; [reflexivity|].
  apply (strings_Join_Split "host;x-amz-date;" ";"). discriminate.
Defined.

(** X20.  Splitting on one character gives one piece more than the
    character occurs in the string, and no piece holds the character: the
    list of signed header names has one name more than the capture has
    semicolons, none of them with a semicolon in it. *)
Theorem strings_Split_on_char (s : string) (c : ascii) :
  List.length (strings.Split s (String c "")) = S (countChar c s)
  /\ Forall (fun piece => countChar c piece = 0) (strings.Split s (String c "")).
Proof.
  unfold strings.Split. destruct (decide (String c "" = "")); [discriminate|].
  destruct (genSplit_char c s "") as [Hlen Hall]. split; [exact Hlen|].
  by apply Hall.
Qed.

Section SignedNames.
Context {L : Libs}.

Lemma signedName_as_set (names names' : list string) (hfn : string) :
  (forall shfn, shfn ∈ names <-> shfn ∈ names') ->
  signedName names hfn = signedName names' hfn.
Proof.
  intros Hset. unfold signedName.
  apply eq_true_iff_eq. rewrite !existsb_exists.
  split; intros (shfn & Hin & Hfold); exists shfn; split; try done;
    apply list_elem_of_In; apply Hset; by apply list_elem_of_In.
Qed.

(** X21.  The headers kept for the reference request depend on the signed
    header names as a set: their order and their repetitions in
    SignedHeaders make no difference (nor does the order in which the map
    of headers is walked, which the result does not mention). *)
Theorem signedHeadersOf_names_as_set (header : gmap string (list string))
    (names names' : list string) :
  (forall shfn, shfn ∈ names <-> shfn ∈ names') ->
  signedHeadersOf header names = signedHeadersOf header names'.
Proof.
  intros Hset. apply map_eq. intros hfn.
  by rewrite !signedHeadersOf_lookup, (signedName_as_set names names' hfn Hset).
Qed.

(** X22.  Of the centre, [AuthenticationPassed] uses the submatcher, the
    zstd decoder and the private key of the token cipher, and nothing
    else: two centres that agree on these give the same outcome on every
    request. *)
Theorem AuthenticationPassed_uses (center1 center2 : Center)
    (request : http.Request) :
  submatcher center1 = submatcher center2 ->
  zstdDecoder center1 = zstdDecoder center2 ->
  userAuthKeys_PrivateKey center1 = userAuthKeys_PrivateKey center2 ->
  AuthenticationPassed center1 request = AuthenticationPassed center2 request.
Proof.
  intros Hsub Hdec Hkey.
  unfold AuthenticationPassed, verifySigned, signAndCompare, unpackBearerToken,
    decompress.
  by rewrite Hsub, Hdec, Hkey.
Qed.
End SignedNames.

Lemma signedHeadersOf_names_as_set_witness :
  signedHeadersOf (http.Header (Sample.signed None)) ["host"; "x-amz-date"]
  = signedHeadersOf (http.Header (Sample.signed None))
      ["x-amz-date"; "host"; "host"].
Proof.
  apply (@signedHeadersOf_names_as_set Sample.libs
           (http.Header (Sample.signed None))
           ["host"; "x-amz-date"] ["x-amz-date"; "host"; "host"]).
  intros shfn. rewrite !elem_of_cons, !elem_of_nil. tauto.
Defined.

Lemma AuthenticationPassed_uses_witness :
  userAuthKeys_PublicKey Sample.center <> x00
  /\ wifString Sample.center <> "another"
  /\ AuthenticationPassed
       {| submatcher := submatcher Sample.center;
          zstdEncoder := tt;
          zstdDecoder := tt;
          neofsKeys_PrivateKey := tt;
          ownerID := tt;
          wifString := "another";
          userAuthKeys_PrivateKey := x5a;
          userAuthKeys_PublicKey := x00 |}
       (Sample.signed None)
     = AuthenticationPassed Sample.center (Sample.signed None).
Proof.
  split; [vm_compute; discriminate|].
  split; [vm_compute; discriminate|].
  apply (@AuthenticationPassed_uses Sample.libs); reflexivity.
Defined.

(** ** The identity keys *)

Section IdentityKeys.
Context {L : Libs} {I : IdentityLibs L}.

(** X23.  When the owner ID and the WIF form of the key can both be
    computed, [SetNeoFSKeys] returns no error and the four getters give
    the key, its public half, its owner ID and its WIF string. *)
Theorem SetNeoFSKeys_sets (center : Keyed) (key : ecdsa_PrivateKey)
    (oid : OwnerID) (wif : string) :
  NewOwnerID (ecdsa_Public key) = Ok oid ->
  WIFEncode key = Ok wif ->
  snd (SetNeoFSKeys center key) = None
  /\ GetNeoFSPrivateKey (fst (SetNeoFSKeys center key)) = key
  /\ GetNeoFSPublicKey (fst (SetNeoFSKeys center key)) = ecdsa_Public key
  /\ GetOwnerID (fst (SetNeoFSKeys center key)) = oid
  /\ GetWIFString (fst (SetNeoFSKeys center key)) = wif.
Proof.
  intros Hoid Hwif. unfold SetNeoFSKeys. by rewrite Hoid, Hwif.
Qed.

(** X24.  When the owner ID of the key cannot be computed, [SetNeoFSKeys]
    returns that error, wrapped, and leaves the centre as it was. *)
Theorem SetNeoFSKeys_owner_failure (center : Keyed) (key : ecdsa_PrivateKey)
    (cause : err) :
  NewOwnerID (ecdsa_Public key) = Err cause ->
  SetNeoFSKeys center key
    = (center, Some (withMessage cause "failed to get OwnerID")).
Proof.
  intros Hoid. unfold SetNeoFSKeys. by rewrite Hoid.
Qed.

(** X25.  When the owner ID can be computed but the WIF form cannot,
    [SetNeoFSKeys] returns the error after it has stored the private key:
    the centre is left with the new private key beside the public key, the
    owner ID and the WIF string that it had before. *)
Theorem SetNeoFSKeys_wif_failure (center : Keyed) (key : ecdsa_PrivateKey)
    (oid : OwnerID) (cause : err) :
  NewOwnerID (ecdsa_Public key) = Ok oid ->
  WIFEncode key = Err cause ->
  snd (SetNeoFSKeys center key)
    = Some (withMessage cause "failed to get WIF string from given key")
  /\ GetNeoFSPrivateKey (fst (SetNeoFSKeys center key)) = key
  /\ GetNeoFSPublicKey (fst (SetNeoFSKeys center key)) = GetNeoFSPublicKey center
  /\ GetOwnerID (fst (SetNeoFSKeys center key)) = GetOwnerID center
  /\ GetWIFString (fst (SetNeoFSKeys center key)) = GetWIFString center.
Proof.
  intros Hoid Hwif. unfold SetNeoFSKeys. by rewrite Hoid, Hwif.
Qed.

(** X26.  Setting the identity keys, whether it succeeds or fails, has no
    effect on authentication: the centre it leaves behind unpacks every
    access key and answers every request as the centre before did.  Nor
    does setting the keys of the token cipher touch what the four getters
    return. *)
Theorem SetNeoFSKeys_apart_from_authentication (center : Keyed)
    (key : ecdsa_PrivateKey) (userKey : rsa_PrivateKey) :
  (forall accessKeyID,
      unpackBearerToken (centerOf (fst (SetNeoFSKeys center key))) accessKeyID
      = unpackBearerToken (centerOf center) accessKeyID)
  /\ (forall request,
      AuthenticationPassed (centerOf (fst (SetNeoFSKeys center key))) request
      = AuthenticationPassed (centerOf center) request)
  /\ GetNeoFSPrivateKey (withUserAuthKeys center userKey)
     = GetNeoFSPrivateKey center
  /\ GetNeoFSPublicKey (withUserAuthKeys center userKey)
     = GetNeoFSPublicKey center
  /\ GetOwnerID (withUserAuthKeys center userKey) = GetOwnerID center
  /\ GetWIFString (withUserAuthKeys center userKey) = GetWIFString center.
Proof.
  assert (Hfields :
            submatcher (centerOf (fst (SetNeoFSKeys center key)))
              = submatcher (centerOf center)
            /\ zstdDecoder (centerOf (fst (SetNeoFSKeys center key)))
              = zstdDecoder (centerOf center)
            /\ userAuthKeys_PrivateKey (centerOf (fst (SetNeoFSKeys center key)))
              = userAuthKeys_PrivateKey (centerOf center)).
  { unfold SetNeoFSKeys.
    destruct (NewOwnerID _); [destruct (WIFEncode key)|]; by repeat split. }
  destruct Hfields as (Hsub & Hdec & Hkey).
  split; [|split; [|by repeat split]].
  - intros accessKeyID. unfold unpackBearerToken, decompress.
    by rewrite Hdec, Hkey.
  - intros request.
    unfold AuthenticationPassed, verifySigned, signAndCompare,
      unpackBearerToken, decompress.
    by rewrite Hsub, Hdec, Hkey.
Qed.
End IdentityKeys.

Lemma SetNeoFSKeys_sets_witness :
  GetNeoFSPrivateKey Cases.keyed = 1
  /\ snd (@SetNeoFSKeys Cases.libs Cases.identity Cases.keyed 3) = None
  /\ GetNeoFSPrivateKey (fst (@SetNeoFSKeys Cases.libs Cases.identity Cases.keyed 3))
     = 3
  /\ GetNeoFSPublicKey (fst (@SetNeoFSKeys Cases.libs Cases.identity Cases.keyed 3))
     = 6
  /\ GetOwnerID (fst (@SetNeoFSKeys Cases.libs Cases.identity Cases.keyed 3)) = "G"
  /\ GetWIFString (fst (@SetNeoFSKeys Cases.libs Cases.identity Cases.keyed 3))
     = "d".
Proof.
  split; [reflexivity|].
  apply (@SetNeoFSKeys_sets Cases.libs Cases.identity Cases.keyed 3 "G" "d");
    reflexivity.
Defined.

Lemma SetNeoFSKeys_owner_failure_witness :
  @SetNeoFSKeys Cases.libs Cases.identity Cases.keyed 0
  = (Cases.keyed,
     Some (withMessage (fundamental "unsupported public key")
                       "failed to get OwnerID")).
Proof.
  apply (@SetNeoFSKeys_owner_failure Cases.libs Cases.identity Cases.keyed 0).
  reflexivity.
Defined.

Lemma SetNeoFSKeys_wif_failure_witness :
  snd (@SetNeoFSKeys Cases.libs Cases.identity Cases.keyed 100)
    = Some (withMessage (fundamental "invalid private key")
                        "failed to get WIF string from given key")
  /\ GetNeoFSPrivateKey
       (fst (@SetNeoFSKeys Cases.libs Cases.identity Cases.keyed 100)) = 100
  /\ GetNeoFSPublicKey
       (fst (@SetNeoFSKeys Cases.libs Cases.identity Cases.keyed 100)) = 2
  /\ GetOwnerID (fst (@SetNeoFSKeys Cases.libs Cases.identity Cases.keyed 100))
     = "C"
  /\ GetWIFString (fst (@SetNeoFSKeys Cases.libs Cases.identity Cases.keyed 100))
     = "b".
Proof.
  apply (@SetNeoFSKeys_wif_failure Cases.libs Cases.identity Cases.keyed 100
           (String (ascii_of_nat 265) "")
           (fundamental "invalid private key")); reflexivity.
Defined.
